(** * Parquet Client Data Editor: a model of [visualizar_tabela.py]

    The script is a Streamlit page that is re-run from top to bottom on every
    user interaction.  One run ("pass") is modelled as a computation in a
    state-and-exception monad over

    - the storage that outlives a pass (the S3 objects, the local files and
      the [st.cache_data] memo table),
    - what the pass shows (the Streamlit elements it renders, in order),
    - the storage calls it issues (in order, each with its outcome),
    - the module namespace of the script.

    What the user did and what the outside world does during the pass (widget
    values, the clock, transport faults) is the record [Inputs]. *)

From stdpp Require Import base gmap strings list pretty.
From Stdlib Require Import ZArith Lia Ascii.

Open Scope Z_scope.

(** ** Tables, objects and blobs *)

Inductive cell :=
  | CNull
  | CInt (z : Z)
  | CText (s : string)
  | CBool (b : bool).

(** The contents of a [pandas.DataFrame]: named columns and positionally
    aligned rows. *)
Record Table := mkTable {
  columns : list string;
  rows : list (list cell)
}.

(** A [DataFrame] object: its identity and its contents.  The script never
    mutates a frame in place, so an object carries its contents with it. *)
Record DataFrame := mkDataFrame {
  oid : nat;
  table : Table
}.

(** [len(df)] *)
Definition len (df : DataFrame) : Z := Z.of_nat (length (rows (table df))).

(** A byte blob, seen through the Parquet codec: either the encoding of a
    table or bytes that do not decode. *)
Inductive blob :=
  | Parquet (t : Table)
  | Junk (raw : string).

(** ** Python values, exceptions *)

Inductive pyval :=
  | PStr (s : string)
  | PFrame (df : DataFrame)
  | PObject (description : string).

(** The exception classes the script can meet; all of them derive from
    [Exception]. *)
Inductive exn_class :=
  | NameError
  | AttributeError
  | KeyError
  | ValueError
  | OSError
  | ClientError
  | ParamValidationError
  | ArrowInvalid.

Record exn := Exc {
  exn_cls : exn_class;
  exn_msg : string
}.

(** [str(e)] *)
Definition str (e : exn) : string := exn_msg e.

Global Instance exn_class_eq_dec : EqDecision exn_class.
Proof. solve_decision. Defined.

(** ** What a pass renders and which storage calls it issues *)

Inductive ui_event :=
  | UiTitle (s : string)
  | UiSidebarHeader (s : string)
  | UiSidebarSuccess (s : string)
  | UiSidebarInfo (s : string)
  | UiSubheader (s : string)
  | UiSuccess (s : string)
  | UiInfo (s : string)
  | UiError (s : string)
  | UiMarkdown (s : string)
  | UiWriteSummary (t : Table)
  | UiWidget (label : string).

Inductive io_call :=
  | GetObject (bucket key : string)
  | CopyObject (dst_bucket : string) (src : string * string) (dst_key : string)
  | PutObject (bucket key : string) (body : blob)
  | FileWrite (path : string) (body : blob).

(** ** The state of a pass *)

Record state := mkState {
  s3_objects : gmap (string * string) blob;
  local_files : gmap string blob;
  cache : gmap (string * string) Table;
  ui : list ui_event;
  calls : list (io_call * bool);
  globals : gmap string pyval;
  next_oid : nat
}.

Definition set_s3_objects (f : gmap (string * string) blob → gmap (string * string) blob)
    (s : state) : state :=
  mkState (f (s3_objects s)) (local_files s) (cache s) (ui s) (calls s)
          (globals s) (next_oid s).

Definition set_local_files (f : gmap string blob → gmap string blob) (s : state) : state :=
  mkState (s3_objects s) (f (local_files s)) (cache s) (ui s) (calls s)
          (globals s) (next_oid s).

Definition set_cache (f : gmap (string * string) Table → gmap (string * string) Table)
    (s : state) : state :=
  mkState (s3_objects s) (local_files s) (f (cache s)) (ui s) (calls s)
          (globals s) (next_oid s).

Definition set_ui (f : list ui_event → list ui_event) (s : state) : state :=
  mkState (s3_objects s) (local_files s) (cache s) (f (ui s)) (calls s)
          (globals s) (next_oid s).

Definition set_calls (f : list (io_call * bool) → list (io_call * bool)) (s : state) : state :=
  mkState (s3_objects s) (local_files s) (cache s) (ui s) (f (calls s))
          (globals s) (next_oid s).

Definition set_globals (f : gmap string pyval → gmap string pyval) (s : state) : state :=
  mkState (s3_objects s) (local_files s) (cache s) (ui s) (calls s)
          (f (globals s)) (next_oid s).

Definition set_next_oid (f : nat → nat) (s : state) : state :=
  mkState (s3_objects s) (local_files s) (cache s) (ui s) (calls s)
          (globals s) (f (next_oid s)).

(** ** The monad *)

(** How a statement ends: normally, with a raised [Exception], or with the
    [StopException] of [st.stop()].  The latter derives from [BaseException],
    so [except Exception] does not catch it. *)
Inductive result (A : Type) :=
  | Ret (a : A)
  | Raise (e : exn)
  | Halt.
Global Arguments Ret {A} a.
Global Arguments Raise {A} e.
Global Arguments Halt {A}.

Definition M (A : Type) : Type := state → result A * state.

Global Instance M_ret : MRet M := λ A a s, (Ret a, s).

Global Instance M_bind : MBind M := λ A B k m s,
  match m s with
  | (Ret a, s') => k a s'
  | (Raise e, s') => (Raise e, s')
  | (Halt, s') => (Halt, s')
  end.

Definition raise {A} (e : exn) : M A := λ s, (Raise e, s).

(** [st.stop()] *)
Definition st_stop {A} : M A := λ s, (Halt, s).

(** [try: body except Exception as e: handler] *)
Definition try_except {A} (body : M A) (handler : exn → M A) : M A := λ s,
  match body s with
  | (Raise e, s') => handler e s'
  | other => other
  end.

(** [try: body except cls: handler] *)
Definition try_except_only {A} (cls : exn_class) (body : M A) (handler : M A) : M A := λ s,
  match body s with
  | (Raise e, s') =>
      if decide (exn_cls e = cls) then handler s' else (Raise e, s')
  | other => other
  end.

(** ** Primitive statements *)

Definition modify (f : state → state) : M unit := λ s, (Ret (), f s).

Definition gets {A} (f : state → A) : M A := λ s, (Ret (f s), s).

(** An [if] without [else] falls through. *)
Definition skip : M unit := mret ().

Definition emit (ev : ui_event) : M unit := modify (set_ui (λ l, l ++ [ev])).

Definition log_call (c : io_call) (ok : bool) : M unit :=
  modify (set_calls (λ l, l ++ [(c, ok)])).

(** [name = v] at module level *)
Definition assign (name : string) (v : pyval) : M unit :=
  modify (set_globals (insert name v)).

(** Reading a name that the script may not have bound. *)
Definition load_name (name : string) : M pyval :=
  namespace ← gets globals;
  match namespace !! name with
  | Some v => mret v
  | None => raise (Exc NameError ("name '" +:+ name +:+ "' is not defined"))
  end.

(** Allocation of a new [DataFrame] object. *)
Definition new_frame (t : Table) : M DataFrame :=
  n ← gets next_oid;
  modify (set_next_oid S);;
  mret (mkDataFrame n t).

(** An integer in an f-string: its decimal digits. *)
Definition format_int (z : Z) : string := pretty z.
Global Arguments format_int : simpl never.

(** [df.copy()] *)
Definition df_copy (df : DataFrame) : M DataFrame := new_frame (table df).

(** ** The clock and [strftime('%Y%m%d')] *)

Record Date := mkDate {
  year : N;
  month : N;
  day : N
}.

(** [datetime] only represents years 1 to 9999. *)
Definition valid_date (d : Date) : Prop :=
  (1 ≤ year d ≤ 9999)%N ∧ (1 ≤ month d ≤ 12)%N ∧ (1 ≤ day d ≤ 31)%N.

Definition digit (n : N) : ascii := ascii_of_N (48 + n `mod` 10)%N.

Definition two_digits (n : N) : string :=
  String (digit (n / 10)) (String (digit n) EmptyString).

Definition four_digits (n : N) : string :=
  String (digit (n / 1000)) (String (digit (n / 100)) (two_digits n)).

(** [d.strftime('%Y%m%d')]: the year on four digits, then month and day on
    two digits each.  (For a year below 1000 some C libraries leave out the
    leading zeros; [datetime.now()] never returns one.) *)
Definition strftime_Ymd (d : Date) : string :=
  four_digits (year d) +:+ two_digits (month d) +:+ two_digits (day d).

(** ** What happens around the script during one pass *)

Record Inputs := mkInputs {
  (** [st.secrets] *)
  secrets : gmap string string;
  (** [datetime.now()] *)
  now : Date;
  (** the selected option of each radio, by label; absent: the first option *)
  radio_choice : gmap string string;
  (** the file in the upload control, if any *)
  uploaded_file : option blob;
  (** which editor functions this Streamlit version has *)
  has_data_editor : bool;
  has_experimental_data_editor : bool;
  (** the user's edits in the grid: the table rendered ↦ the table returned *)
  grid_edit : Table → Table;
  (** the text typed in each text input, by label; absent: its default *)
  typed_text : gmap string string;
  (** the button whose click started this pass, if it was a click: a click
      re-runs the script, so at most one button reads [True] in a pass *)
  clicked_button : option string;
  (** the ticked checkboxes, by label *)
  ticked : gset string;
  (** transport or service failure of each storage call, with its text *)
  get_fault : option string;
  copy_fault : option string;
  put_fault : option string;
  (** failure of the encoder or of the local file write, with its text *)
  encode_fault : option string;
  file_fault : option string
}.

Section Pass.

Context (inp : Inputs).

(** *** Widgets *)

(** The value of a radio: the selected option, the first one by default. *)
Definition radio_value (label : string) (options : list string) : string :=
  match radio_choice inp !! label with
  | Some c => if decide (c ∈ options) then c else default c (head options)
  | None => default EmptyString (head options)
  end.

Definition st_radio (label : string) (options : list string) : M string :=
  emit (UiWidget label);;
  mret (radio_value label options).

Definition st_button (label : string) : M bool :=
  emit (UiWidget label);;
  mret (bool_decide (clicked_button inp = Some label)).

Definition st_text_input (label value : string) : M string :=
  emit (UiWidget label);;
  mret (default value (typed_text inp !! label)).

Definition st_checkbox (label : string) : M bool :=
  emit (UiWidget label);;
  mret (bool_decide (label ∈ ticked inp)).

Definition st_file_uploader (label : string) : M (option blob) :=
  emit (UiWidget label);;
  mret (uploaded_file inp).

(** [st.data_editor(df, ..., key="data_editor")]: an [AttributeError] when the
    installed Streamlit has no such function, else a new frame holding the
    table as the user edited it. *)
Definition st_data_editor (df : DataFrame) : M DataFrame :=
  if has_data_editor inp then
    emit (UiWidget "data_editor");;
    new_frame (grid_edit inp (table df))
  else
    raise (Exc AttributeError "module 'streamlit' has no attribute 'data_editor'").

Definition st_experimental_data_editor (df : DataFrame) : M DataFrame :=
  if has_experimental_data_editor inp then
    emit (UiWidget "data_editor");;
    new_frame (grid_edit inp (table df))
  else
    raise (Exc AttributeError
             "module 'streamlit' has no attribute 'experimental_data_editor'").

Definition datetime_now : M Date := mret (now inp).

(** *** The storage client *)

(** [s3.get_object(Bucket=bucket, Key=key)] followed by [Body.read()] *)
Definition s3_get_object (bucket key : string) : M blob :=
  match get_fault inp with
  | Some msg => log_call (GetObject bucket key) false;; raise (Exc ClientError msg)
  | None =>
      objects ← gets s3_objects;
      match objects !! (bucket, key) with
      | Some body => log_call (GetObject bucket key) true;; mret body
      | None =>
          log_call (GetObject bucket key) false;;
          raise (Exc ClientError "NoSuchKey: The specified key does not exist.")
      end
  end.

(** [s3.copy_object(Bucket=dst_bucket, CopySource={'Bucket':..,'Key':..}, Key=dst_key)] *)
Definition s3_copy_object (dst_bucket : string) (src : string * string)
    (dst_key : string) : M unit :=
  match copy_fault inp with
  | Some msg =>
      log_call (CopyObject dst_bucket src dst_key) false;; raise (Exc ClientError msg)
  | None =>
      objects ← gets s3_objects;
      match objects !! src with
      | Some body =>
          log_call (CopyObject dst_bucket src dst_key) true;;
          modify (set_s3_objects (insert (dst_bucket, dst_key) body))
      | None =>
          log_call (CopyObject dst_bucket src dst_key) false;;
          raise (Exc ClientError "NoSuchKey: The specified key does not exist.")
      end
  end.

(** [s3.put_object(Bucket=bucket, Key=key, Body=body)] *)
Definition s3_put_object (bucket key : string) (body : blob) : M unit :=
  match put_fault inp with
  | Some msg => log_call (PutObject bucket key body) false;; raise (Exc ClientError msg)
  | None =>
      log_call (PutObject bucket key body) true;;
      modify (set_s3_objects (insert (bucket, key) body))
  end.

(** *** The codec *)

(** [pd.read_parquet(...)] *)
Definition pd_read_parquet (body : blob) : M DataFrame :=
  match body with
  | Parquet t => new_frame t
  | Junk _ => raise (Exc ArrowInvalid "Parquet magic bytes not found in footer.")
  end.

(** [df.to_parquet(buffer)] *)
Definition to_parquet (df : DataFrame) : M blob :=
  match encode_fault inp with
  | Some msg => raise (Exc ValueError msg)
  | None => mret (Parquet (table df))
  end.

(** [df.to_parquet(path)]: encode, then write the local file. *)
Definition to_parquet_file (df : DataFrame) (path : string) : M unit :=
  body ← to_parquet df;
  match file_fault inp with
  | Some msg => log_call (FileWrite path body) false;; raise (Exc OSError msg)
  | None =>
      log_call (FileWrite path body) true;;
      modify (set_local_files (insert path body))
  end.

(** *** [@st.cache_data] *)

(** The decorator, for a function of (bucket, key): a hit returns a copy of
    the stored value and does not run the function; a miss runs it and stores
    what it returns; a raised exception is not stored.  There is no [ttl] and
    no [max_entries], and nothing in the script clears the cache. *)
Definition st_cache_data (f : string → string → M DataFrame)
    (bucket key : string) : M DataFrame :=
  memo ← gets cache;
  match memo !! (bucket, key) with
  | Some t => new_frame t
  | None =>
      df ← f bucket key;
      modify (set_cache (insert (bucket, key) (table df)));;
      mret df
  end.

(** *** Streamlit output elements *)

Definition st_title (s : string) : M unit := emit (UiTitle s).
Definition st_sidebar_header (s : string) : M unit := emit (UiSidebarHeader s).
Definition st_sidebar_success (s : string) : M unit := emit (UiSidebarSuccess s).
Definition st_sidebar_info (s : string) : M unit := emit (UiSidebarInfo s).
Definition st_subheader (s : string) : M unit := emit (UiSubheader s).
Definition st_success (s : string) : M unit := emit (UiSuccess s).
Definition st_info (s : string) : M unit := emit (UiInfo s).
Definition st_error (s : string) : M unit := emit (UiError s).
Definition st_markdown (s : string) : M unit := emit (UiMarkdown s).

(** ** The script *)

(** Lines 23-27.
<<
@st.cache_data
def read_from_s3(bucket, key):
    response = s3.get_object(Bucket=bucket, Key=key)
    return pd.read_parquet(BytesIO(response['Body'].read()))
>> *)
Definition read_from_s3_body (bucket key : string) : M DataFrame :=
  response ← s3_get_object bucket key;
  pd_read_parquet response.

Definition read_from_s3 : string → string → M DataFrame :=
  st_cache_data read_from_s3_body.

(** Lines 30-36.
<<
def write_to_s3(df, bucket, key):
    buffer = BytesIO()
    df.to_parquet(buffer)
    buffer.seek(0)
    s3.put_object(Bucket=bucket, Key=key, Body=buffer)
    return True
>> *)
Definition write_to_s3 (df : DataFrame) (bucket key : string) : M bool :=
  buffer ← to_parquet df;
  s3_put_object bucket key buffer;;
  mret true.

(** Lines 40-41: the sidebar header and the mode selector. *)
Definition choose_mode : M string :=
  st_sidebar_header "Load Data";;
  mode ← st_radio "Choose load mode:" ["Use S3 file"; "Upload local file"];
  assign "mode" (PStr mode);;
  mret mode.

(** Lines 45-55: the body of the [try]. *)
Definition load_attempt (mode bucket key : string) : M DataFrame :=
  if decide (mode = "Use S3 file") then
    df ← read_from_s3 bucket key;
    assign "df" (PFrame df);;
    st_sidebar_success ("Loaded from S3: s3://" +:+ bucket +:+ "/" +:+ key);;
    mret df
  else
    uploaded ← st_file_uploader "Upload a Parquet file";
    match uploaded with
    | Some file =>
        assign "uploaded" (PObject "UploadedFile");;
        df ← pd_read_parquet file;
        assign "df" (PFrame df);;
        st_sidebar_success "File uploaded and loaded";;
        mret df
    | None =>
        assign "uploaded" (PObject "None");;
        st_sidebar_info "Please upload a file or use S3 file";;
        st_stop
    end.

(** Lines 39-58: the load, with its [except Exception as e]. *)
Definition load_data (bucket key : string) : M DataFrame :=
  mode ← choose_mode;
  try_except
    (load_attempt mode bucket key)
    (λ e,
       st_error ("Error loading data: " +:+ str e);;
       st_stop).

(** Lines 62-91. *)
Definition main_editor (df : DataFrame) : M DataFrame :=
  st_subheader "Edit Table";;
  edited_df ← try_except_only AttributeError
                 (st_data_editor df)
                 (st_experimental_data_editor df);
  if decide (len edited_df < len df) then
    code ← st_text_input "Enter code '125' to confirm deletion" "";
    clicked ← st_button "Confirm Deletion";
    if (clicked : bool) then
      if decide (code = "125") then
        st_success ("Deleted " +:+ format_int (len df - len edited_df) +:+ " row(s)");;
        mret edited_df
      else
        st_error "Incorrect code. No rows were deleted.";;
        df_copy df
    else mret edited_df
  else mret edited_df.

(** Lines 104-115: the body of the [try] under the "Save to S3" button. *)
Definition save_to_s3_attempt (bucket key : string) (edited_df : DataFrame) : M unit :=
  today ← datetime_now;
  let backup_key :=
    "backups/Controle_de_Processos_" +:+ strftime_Ymd today +:+ ".parquet" in
  assign "backup_key" (PStr backup_key);;
  dst ← load_name "BUCKET_NAME";
  match dst with
  | PStr dst_bucket => s3_copy_object dst_bucket (bucket, key) backup_key
  | _ => raise (Exc ParamValidationError "Invalid type for parameter Bucket")
  end;;
  write_to_s3 edited_df bucket key;;
  st_success ("Saved to S3: s3://" +:+ bucket +:+ "/" +:+ key);;
  st_info ("Backup created at s3://" +:+ bucket +:+ "/" +:+ key).

(** Lines 103-117. *)
Definition save_to_s3 (bucket key : string) (edited_df : DataFrame) : M unit :=
  try_except
    (save_to_s3_attempt bucket key edited_df)
    (λ e, st_error ("Error saving to S3: " +:+ str e)).

(** Lines 122-123: the body of the [try] under the "Save locally" button. *)
Definition save_locally_attempt (edited_df : DataFrame) (save_path : string) : M unit :=
  to_parquet_file edited_df save_path;;
  st_success ("Saved locally as " +:+ save_path).

(** Lines 121-125. *)
Definition save_to_file (edited_df : DataFrame) (save_path : string) : M unit :=
  try_except
    (save_locally_attempt edited_df save_path)
    (λ e, st_error ("Error saving locally: " +:+ str e)).

(** Lines 119-125: the local destination. *)
Definition save_locally (edited_df : DataFrame) : M unit :=
  save_path ← st_text_input "Local save path:" "Controle_de_Processos_edited.parquet";
  assign "save_path" (PStr save_path);;
  clicked ← st_button "Save locally";
  if (clicked : bool) then save_to_file edited_df save_path else skip.

(** Lines 98-125. *)
Definition save_changes (bucket key : string) (edited_df : DataFrame) : M unit :=
  st_subheader "Save Changes";;
  save_option ← st_radio "Save to:" ["S3"; "Local"];
  assign "save_option" (PStr save_option);;
  if decide (save_option = "S3") then
    clicked ← st_button "Save to S3";
    if (clicked : bool) then save_to_s3 bucket key edited_df else skip
  else save_locally edited_df.

(** [edited_df.describe(include='all')]: the summary is not looked into; the
    call fails on a frame without columns. *)
Definition df_describe (df : DataFrame) : M Table :=
  match columns (table df) with
  | [] => raise (Exc ValueError "Cannot describe a DataFrame without columns")
  | _ => mret (table df)
  end.

(** The text of the footer, lines 133-138. *)
Definition application_notes : string :=
  "
**Application Notes:**
- Default loads from S3: `s3://controle-de-processos/Controle_de_Processos.parquet`
- Upload alternative files when needed
- All S3 operations use credentials from `~/.aws/credentials`
".

(** Lines 128-138. *)
Definition summary_and_footer (edited_df : DataFrame) : M unit :=
  show ← st_checkbox "Show DataFrame Summary";
  (if (show : bool) then
     summary ← df_describe edited_df;
     emit (UiWriteSummary summary)
   else skip);;
  st_markdown "---";;
  st_markdown application_notes.

(** Lines 39-138: everything after the configuration. *)
Definition page (bucket key : string) : M unit :=
  df ← load_data bucket key;
  assign "main_editor" (PObject "function");;
  edited_df ← main_editor df;
  assign "edited_df" (PFrame edited_df);;
  save_changes bucket key edited_df;;
  summary_and_footer edited_df.

(** [st.secrets[name]] *)
Definition st_secrets (name : string) : M string :=
  match secrets inp !! name with
  | Some v => mret v
  | None => raise (Exc KeyError ("st.secrets has no key '" +:+ name +:+ "'"))
  end.

(** Lines 1-36: imports, the storage client, the title, the address of the
    table and the two function definitions.  [boto3.client] is taken to
    return a client: it contacts no service, and the failure of its own, on a
    region name that is not well formed, is left out. *)
Definition configure : M (string * string) :=
  assign "st" (PObject "module");;
  assign "pd" (PObject "module");;
  assign "os" (PObject "module");;
  assign "datetime" (PObject "class");;
  assign "boto3" (PObject "module");;
  assign "BytesIO" (PObject "class");;
  access_key ← st_secrets "AWS_ACCESS_KEY_ID";
  secret_key ← st_secrets "AWS_SECRET_ACCESS_KEY";
  region ← st_secrets "AWS_REGION";
  assign "s3" (PObject "client");;
  st_title "Parquet Client Data Editor";;
  bucket ← st_secrets "BUCKET_NAME";
  assign "bucket" (PStr bucket);;
  key ← st_secrets "PARQUET_KEY";
  assign "key" (PStr key);;
  assign "read_from_s3" (PObject "function");;
  assign "write_to_s3" (PObject "function");;
  mret (bucket, key).

(** The whole script. *)
Definition app : M unit :=
  address ← configure;
  page address.1 address.2.

End Pass.

(** ** Passes and sessions *)

(** The names that are visible before the script binds any: the Python
    builtins it uses.  No builtin is called [BUCKET_NAME]. *)
Definition python_builtins : gmap string pyval :=
  list_to_map [("len", PObject "builtin"); ("str", PObject "builtin");
               ("Exception", PObject "class"); ("AttributeError", PObject "class")].

(** Every pass runs the script in a new module namespace, with nothing
    rendered yet; the storage and the memo table are what the previous pass
    left. *)
Definition fresh_pass (ns : gmap string pyval) (s : state) : state :=
  mkState (s3_objects s) (local_files s) (cache s) [] [] ns 0.

Definition run_pass (ns : gmap string pyval) (inp : Inputs) (s : state)
    : result unit * state :=
  app inp (fresh_pass ns s).

Definition run_session (ns : gmap string pyval) (inps : list Inputs) (s : state) : state :=
  foldl (λ s inp, (run_pass ns inp s).2) s inps.

(** ** Vocabulary of the properties *)

(** The text in the confirmation input when the script reads it. *)
Definition entered_code (inp : Inputs) : string :=
  default "" (typed_text inp !! "Enter code '125' to confirm deletion").

(** The path in the local-path input when the script reads it. *)
Definition entered_path (inp : Inputs) : string :=
  default "Controle_de_Processos_edited.parquet" (typed_text inp !! "Local save path:").

(** The grid returns a table: one of the two editor functions exists. *)
Definition grid_returns (inp : Inputs) : Prop :=
  has_data_editor inp = true ∨ has_experimental_data_editor inp = true.

(** The grid hands back fewer rows than it was given. *)
Definition rows_deleted (inp : Inputs) (df : DataFrame) : Prop :=
  (length (rows (grid_edit inp (table df))) < length (rows (table df)))%nat.

(** The backup address as the specification words it:
    [backups/<base-name>_<YYYYMMDD>.<ext>], from the primary key. *)
Fixpoint contains (c : ascii) (s : string) : bool :=
  match s with
  | EmptyString => false
  | String a r => if decide (a = c) then true else contains c r
  end.

Fixpoint after_last (c : ascii) (s : string) : string :=
  match s with
  | EmptyString => EmptyString
  | String a r =>
      if contains c r then after_last c r
      else if decide (a = c) then r else s
  end.

Fixpoint before_last (c : ascii) (s : string) : string :=
  match s with
  | EmptyString => EmptyString
  | String a r =>
      if contains c r then String a (before_last c r)
      else if decide (a = c) then EmptyString else s
  end.

Definition spec_backup_key (key : string) (d : Date) : string :=
  let file_name := after_last "/" key in
  "backups/" +:+ before_last "." file_name +:+ "_" +:+ strftime_Ymd d
  +:+ "." +:+ after_last "." file_name.

(** A storage call that writes the object at (bucket, key). *)
Definition writes_primary (bucket key : string) (c : io_call * bool) : Prop :=
  ∃ body ok, c = (PutObject bucket key body, ok).

(** The storage call that copied the object at (bucket, key) to
    (dst_bucket, dst_key), and succeeded. *)
Definition backs_up (bucket key dst_bucket dst_key : string) (c : io_call * bool) : Prop :=
  c = (CopyObject dst_bucket (bucket, key) dst_key, true).

(** A copy call that failed. *)
Definition failed_copy (c : io_call * bool) : Prop :=
  ∃ dst_bucket src dst_key, c = (CopyObject dst_bucket src dst_key, false).

(** A call that reaches for the bucket to copy or to write an object. *)
Definition copies_or_puts (c : io_call * bool) : Prop :=
  match c.1 with
  | CopyObject _ _ _ | PutObject _ _ _ => True
  | _ => False
  end.

(** What [main_editor] has rendered when the confirmation gate is up. *)
Definition gate_shown : list ui_event :=
  [UiSubheader "Edit Table"; UiWidget "data_editor";
   UiWidget "Enter code '125' to confirm deletion"; UiWidget "Confirm Deletion"].

(** The frame that the grid returns to [main_editor]: the first allocation
    of the call. *)
Definition grid_frame (inp : Inputs) (df : DataFrame) (s : state) : DataFrame :=
  mkDataFrame (next_oid s) (grid_edit inp (table df)).

(** The backup key of line 105, for a save on day [d]. *)
Definition backup_key_on (d : Date) : string :=
  "backups/Controle_de_Processos_" +:+ strftime_Ymd d +:+ ".parquet".

(** The storage calls one run of the save section can issue for the table at
    (bucket, key), in order, each with its outcome: [resolved] is what the
    name [BUCKET_NAME] stands for when the section starts, [backup_key] the
    backup key of the day and [t] the table of the outcome. *)
Inductive save_trace (bucket key backup_key : string) (resolved : option pyval)
    (t : Table) : list (io_call * bool) → Prop :=
  | trace_nothing :
      save_trace bucket key backup_key resolved t []
  | trace_copy_failed dst_bucket :
      resolved = Some (PStr dst_bucket) →
      save_trace bucket key backup_key resolved t
        [(CopyObject dst_bucket (bucket, key) backup_key, false)]
  | trace_copy_only dst_bucket :
      resolved = Some (PStr dst_bucket) →
      save_trace bucket key backup_key resolved t
        [(CopyObject dst_bucket (bucket, key) backup_key, true)]
  | trace_copy_put dst_bucket ok :
      resolved = Some (PStr dst_bucket) →
      save_trace bucket key backup_key resolved t
        [(CopyObject dst_bucket (bucket, key) backup_key, true);
         (PutObject bucket key (Parquet t), ok)]
  | trace_file path ok :
      save_trace bucket key backup_key resolved t [(FileWrite path (Parquet t), ok)].

(** What the "Save to S3" handler shows when [BUCKET_NAME] does not resolve. *)
Definition name_error_shown : ui_event :=
  UiError "Error saving to S3: name 'BUCKET_NAME' is not defined".

(** The property that a pass keeps when nothing binds [BUCKET_NAME]: the name
    stays unbound, the bucket holds what it held, no copy or put call has been
    issued, and a clicked "Save to S3" button has been answered by the
    [NameError] message. *)
Definition no_remote_write (objects : gmap (string * string) blob) (inp : Inputs)
    (s : state) : Prop :=
  globals s !! "BUCKET_NAME" = None ∧
  s3_objects s = objects ∧
  (∀ c, c ∈ calls s → ¬ copies_or_puts c) ∧
  (UiWidget "Save to S3" ∈ ui s → clicked_button inp = Some "Save to S3" →
   name_error_shown ∈ ui s).

(** ** A small deployment, for the examples *)

Definition three_rows : Table :=
  mkTable ["processo"; "cliente"]
    [[CInt 1; CText "Ana"]; [CInt 2; CText "Bruno"]; [CInt 3; CText "Carla"]].

Definition two_rows : Table :=
  mkTable ["processo"; "cliente"] [[CInt 1; CText "Ana"]; [CInt 2; CText "Bruno"]].

(** The user deletes the last row of the grid. *)
Definition delete_last_row (t : Table) : Table :=
  mkTable (columns t) (removelast (rows t)).

Definition example_secrets : gmap string string :=
  list_to_map [("AWS_ACCESS_KEY_ID", "AKIA"); ("AWS_SECRET_ACCESS_KEY", "hidden");
               ("AWS_REGION", "sa-east-1"); ("BUCKET_NAME", "controle-de-processos");
               ("PARQUET_KEY", "Controle_de_Processos.parquet")].

(** A pass on 3 November 2026 in which the last row is deleted in the grid:
    [code] is the text in the confirmation input, [click] the button that
    started the pass and [destination] the selected save destination. *)
Definition example_pass (code : string) (click : option string) (destination : string)
    : Inputs :=
  mkInputs example_secrets (mkDate 2026 11 3) {["Save to:" := destination]} None
    true true delete_last_row
    {["Enter code '125' to confirm deletion" := code]} click ∅
    None None None None None.

(** The bucket holds the three-row table; nothing is cached yet. *)
Definition example_store : state :=
  mkState {[("controle-de-processos", "Controle_de_Processos.parquet") := Parquet three_rows]}
    ∅ ∅ [] [] ∅ 0.

(** A namespace in which [BUCKET_NAME] resolves to the bucket. *)
Definition with_bucket_name : gmap string pyval :=
  <["BUCKET_NAME" := PStr "controle-de-processos"]> python_builtins.

(** The messages among what a pass shows. *)
Definition is_report (ev : ui_event) : bool :=
  match ev with
  | UiSuccess _ | UiInfo _ | UiError _ => true
  | _ => false
  end.

(** ** Vocabulary for the rest of the script *)

(** The load mode and the save destination that the script reads. *)
Definition selected_mode (inp : Inputs) : string :=
  radio_value inp "Choose load mode:" ["Use S3 file"; "Upload local file"].

Definition selected_destination (inp : Inputs) : string :=
  radio_value inp "Save to:" ["S3"; "Local"].

(** The same pass under another Streamlit version: only the editor functions
    that exist differ. *)
Definition with_editors (data_editor experimental : bool) (inp : Inputs) : Inputs :=
  mkInputs (secrets inp) (now inp) (radio_choice inp) (uploaded_file inp)
    data_editor experimental (grid_edit inp) (typed_text inp) (clicked_button inp)
    (ticked inp) (get_fault inp) (copy_fault inp) (put_fault inp) (encode_fault inp)
    (file_fault inp).

(** The secrets that lines 11-20 read. *)
Definition secret_names : list string :=
  ["AWS_ACCESS_KEY_ID"; "AWS_SECRET_ACCESS_KEY"; "AWS_REGION"; "BUCKET_NAME";
   "PARQUET_KEY"].

(** A write of a local file. *)
Definition is_file_write (c : io_call * bool) : Prop :=
  match c.1 with
  | FileWrite _ _ => True
  | _ => False
  end.

(** The pass did not start with a click on a save button. *)
Definition no_save_click (inp : Inputs) : Prop :=
  clicked_button inp ≠ Some "Save to S3" ∧ clicked_button inp ≠ Some "Save locally".

(** The user changes the first cell of the grid and deletes nothing. *)
Definition rename_first_client (t : Table) : Table :=
  match rows t with
  | (id :: _ :: rest) :: others => mkTable (columns t) ((id :: CText "Alice" :: rest) :: others)
  | _ => t
  end.

(** A pass in upload mode on 3 November 2026, with [file] in the upload
    control, [edit] done in the grid and [click] the button clicked. *)
Definition example_upload_pass (file : option blob) (edit : Table → Table)
    (click : option string) : Inputs :=
  mkInputs example_secrets (mkDate 2026 11 3)
    {["Choose load mode:" := "Upload local file"; "Save to:" := "Local"]} file
    true true edit ∅ click ∅ None None None None None.

(** A statement keeps a property of the state, however it ends. *)
Definition preserves {A} (I : state → Prop) (m : M A) : Prop :=
  ∀ s, I s → I (m s).2.

(** * Reasoning *)

(** ** Running a statement *)

Ltac unfold_monad :=
  unfold mbind, M_bind, mret, M_ret, skip, raise, st_stop, gets, modify,
    try_except, try_except_only in *.

Ltac unfold_streamlit :=
  unfold st_title, st_sidebar_header, st_sidebar_success, st_sidebar_info,
    st_subheader, st_success, st_info, st_error, st_markdown, st_radio,
    st_button, st_text_input, st_checkbox, st_file_uploader, st_data_editor,
    st_experimental_data_editor, datetime_now, df_copy, new_frame, load_name,
    emit, log_call, assign in *.

Ltac run := unfold_streamlit; unfold_monad; simpl.

(** The same without [simpl]: only the monad is reduced, so that decisions,
    lookups and strings stay as they are written. *)
Ltac exec :=
  unfold_streamlit;
  cbv beta iota zeta delta [mbind M_bind mret M_ret skip raise st_stop gets modify
                            try_except try_except_only fst snd] in *.

(** Splits on whatever the run still depends on. *)
Ltac cases := repeat (case_match; exec; simplify_eq).

(** Projects a field out of a stack of updates. *)
Ltac fields :=
  cbn [ui calls globals next_oid cache s3_objects local_files set_ui set_calls
       set_globals set_next_oid set_cache set_s3_objects set_local_files] in *.

(** Two states are equal when their fields are; rendered elements and calls
    are compared up to the bracketing of [++]. *)
Ltac same_state :=
  cbv [set_ui set_calls set_globals set_next_oid set_cache set_s3_objects
       set_local_files ui calls globals next_oid cache s3_objects local_files];
  rewrite <- ?app_assoc; cbn [app]; reflexivity.

Lemma bind_ret {A B} (m : M A) (k : A → M B) s a s' :
  m s = (Ret a, s') → (m ≫= k) s = k a s'.
Proof. intros H. unfold mbind, M_bind. by rewrite H. Qed.

Lemma bind_raise {A B} (m : M A) (k : A → M B) s e s' :
  m s = (Raise e, s') → (m ≫= k) s = (Raise e, s').
Proof. intros H. unfold mbind, M_bind. by rewrite H. Qed.

Lemma bind_halt {A B} (m : M A) (k : A → M B) s s' :
  m s = (Halt, s') → (m ≫= k) s = (Halt, s').
Proof. intros H. unfold mbind, M_bind. by rewrite H. Qed.

Lemma bind_modify {B} (f : state → state) (k : unit → M B) s :
  (modify f ≫= k) s = k () (f s).
Proof. reflexivity. Qed.

(** ** Properties kept along a statement *)

Create HintDb preserves.

Section Preserves.

Context (I : state → Prop).

Lemma preserves_ret {A} (a : A) : preserves I (mret a).
Proof. by intros s Hs. Qed.

Lemma preserves_raise {A} (e : exn) : preserves I (raise (A:=A) e).
Proof. by intros s Hs. Qed.

Lemma preserves_stop {A} : preserves I (st_stop (A:=A)).
Proof. by intros s Hs. Qed.

Lemma preserves_skip : preserves I skip.
Proof. by intros s Hs. Qed.

Lemma preserves_gets {A} (f : state → A) : preserves I (gets f).
Proof. by intros s Hs. Qed.

Lemma preserves_modify (f : state → state) :
  (∀ s, I s → I (f s)) → preserves I (modify f).
Proof. intros Hf s Hs. by apply Hf. Qed.

Lemma preserves_bind {A B} (m : M A) (k : A → M B) :
  preserves I m → (∀ a, preserves I (k a)) → preserves I (m ≫= k).
Proof.
  intros Hm Hk s Hs. specialize (Hm s Hs). unfold mbind, M_bind.
  destruct (m s) as [[a | e |] s']; simpl in *; [by apply Hk | done | done].
Qed.

Lemma preserves_try_except {A} (body : M A) (handler : exn → M A) :
  preserves I body → (∀ e, preserves I (handler e)) →
  preserves I (try_except body handler).
Proof.
  intros Hm Hk s Hs. specialize (Hm s Hs). unfold try_except.
  destruct (body s) as [[a | e |] s']; simpl in *; [done | by apply Hk | done].
Qed.

Lemma preserves_try_except_only {A} cls (body handler : M A) :
  preserves I body → preserves I handler →
  preserves I (try_except_only cls body handler).
Proof.
  intros Hm Hk s Hs. specialize (Hm s Hs). unfold try_except_only.
  destruct (body s) as [[a | e |] s']; simpl in *; [done | | done].
  destruct (decide _); [by apply Hk | done].
Qed.

End Preserves.

#[global] Hint Resolve preserves_ret preserves_raise preserves_stop preserves_skip
  preserves_gets : preserves.

(** Decomposes a statement along its structure; [leaf] settles what a state
    update does to the property. *)
Ltac preserves_step leaf :=
  first
    [ solve [auto 2 with preserves]
    | lazymatch goal with
      | |- preserves _ (mret _) => apply preserves_ret
      | |- preserves _ (raise _) => apply preserves_raise
      | |- preserves _ st_stop => apply preserves_stop
      | |- preserves _ skip => apply preserves_skip
      | |- preserves _ (gets _) => apply preserves_gets
      | |- preserves _ (modify _) => apply preserves_modify; intros ? ?; solve [leaf]
      | |- preserves _ (_ ≫= _) => apply preserves_bind; [| intros ?]
      | |- preserves _ (try_except_only _ _ _) => apply preserves_try_except_only
      | |- preserves _ (try_except _ _) => apply preserves_try_except; [| intros ?]
      | |- preserves _ (match ?x with _ => _ end) => destruct x
      | |- preserves _ (let _ := _ in _) => cbv zeta
      | |- preserves _ _ => progress unfold_streamlit
      end ].

Ltac preserves_with leaf := repeat preserves_step leaf.

(** ** The Edit Session *)

Lemma len_lt_iff (a b : DataFrame) :
  len a < len b ↔ (length (rows (table a)) < length (rows (table b)))%nat.
Proof. unfold len. lia. Qed.

(** [main_editor] when the grid returned fewer rows: the three ways through
    the confirmation gate. *)
Lemma main_editor_gate (inp : Inputs) (df : DataFrame) (s : state) :
  grid_returns inp →
  rows_deleted inp df →
  main_editor inp df s =
    let s1 := set_next_oid S (set_ui (λ l, l ++ gate_shown) s) in
    if bool_decide (clicked_button inp = Some "Confirm Deletion") then
      if decide (entered_code inp = "125") then
        (Ret (grid_frame inp df s),
         set_ui (λ l, l ++ [UiSuccess ("Deleted "
                                        +:+ format_int (len df - len (grid_frame inp df s))
                                        +:+ " row(s)")]) s1)
      else
        (Ret (mkDataFrame (S (next_oid s)) (table df)),
         set_next_oid S
           (set_ui (λ l, l ++ [UiError "Incorrect code. No rows were deleted."]) s1))
    else (Ret (grid_frame inp df s), s1).
Proof.
  intros Hg Hlt. unfold main_editor, grid_frame, gate_shown, entered_code.
  assert (Hlen : ∀ n, len (mkDataFrame n (grid_edit inp (table df))) < len df)
    by (intros n; by apply len_lt_iff).
  run.
  destruct (has_data_editor inp) eqn:Hd; simpl.
  - rewrite decide_True by apply Hlen.
    destruct (bool_decide _); [destruct (decide _) |]; simpl; f_equal; same_state.
  - destruct Hg as [Hg | ->]; [congruence |]. simpl.
    rewrite decide_True by apply Hlen.
    destruct (bool_decide _); [destruct (decide _) |]; simpl; f_equal; same_state.
Qed.

(** C2.  When the grid returns fewer rows than the table it was given, the
    confirm button is clicked and the entered code is not "125", the outcome
    of [main_editor] is a newly allocated frame whose table is the original
    one, whatever the grid returned; the last thing shown is the error
    message. *)
Theorem wrong_code_restores_original (inp : Inputs) (df : DataFrame) (s : state) :
  grid_returns inp →
  rows_deleted inp df →
  clicked_button inp = Some "Confirm Deletion" →
  entered_code inp ≠ "125" →
  ∃ out s',
    main_editor inp df s = (Ret out, s') ∧
    table out = table df ∧
    (next_oid s < oid out)%nat ∧
    ui s' = ui s ++ gate_shown ++ [UiError "Incorrect code. No rows were deleted."].
Proof.
  intros Hg Hlt Hclick Hcode.
  rewrite main_editor_gate by done. simpl.
  rewrite bool_decide_eq_true_2 by done.
  rewrite decide_False by done.
  eexists _, _. split; [reflexivity |]. simpl.
  split; [done |]. split; [lia |]. by rewrite <- app_assoc.
Qed.

(** C3.  When the grid returns r rows out of R, r < R, the confirm button is
    clicked and the entered code is "125", the outcome of [main_editor] is the
    frame the grid returned and the last thing shown is the success message
    with the count R - r. *)
Theorem right_code_accepts_deletion (inp : Inputs) (df : DataFrame) (s : state) :
  grid_returns inp →
  rows_deleted inp df →
  clicked_button inp = Some "Confirm Deletion" →
  entered_code inp = "125" →
  ∃ s',
    main_editor inp df s = (Ret (grid_frame inp df s), s') ∧
    ui s' = ui s ++ gate_shown ++
      [UiSuccess ("Deleted "
                  +:+ pretty (length (rows (table df))
                              - length (rows (grid_edit inp (table df))))%nat
                  +:+ " row(s)")].
Proof.
  intros Hg Hlt Hclick Hcode.
  rewrite main_editor_gate by done. simpl.
  rewrite bool_decide_eq_true_2 by done.
  rewrite decide_True by done.
  eexists. split; [reflexivity |]. simpl.
  rewrite <- app_assoc. do 4 f_equal.
  unfold len, grid_frame. simpl. red in Hlt.
  rewrite <- Nat2Z.inj_sub by lia.
  unfold format_int. unfold pretty at 2, pretty_nat. unfold pretty at 1, pretty_Z.
  destruct (_ - _)%nat eqn:E; [lia |]. simpl. reflexivity.
Qed.

(** ** The local destination *)

Lemma save_changes_local (inp : Inputs) (bucket key : string) (df : DataFrame) (s : state) :
  radio_choice inp !! "Save to:" = Some "Local" →
  clicked_button inp = Some "Save locally" →
  encode_fault inp = None →
  file_fault inp = None →
  save_changes inp bucket key df s =
    (Ret (),
     set_ui (λ l, l ++ [UiSubheader "Save Changes"; UiWidget "Save to:";
                        UiWidget "Local save path:"; UiWidget "Save locally";
                        UiSuccess ("Saved locally as " +:+ entered_path inp)])
       (set_local_files (insert (entered_path inp) (Parquet (table df)))
          (set_calls (λ l, l ++ [(FileWrite (entered_path inp) (Parquet (table df)), true)])
             (set_globals (λ g, <["save_path" := PStr (entered_path inp)]>
                                  (<["save_option" := PStr "Local"]> g)) s)))).
Proof.
  intros Hradio Hclick Henc Hfile.
  unfold save_changes, save_locally, save_to_file, save_locally_attempt,
    to_parquet_file, to_parquet, entered_path.
  run. unfold radio_value. rewrite Hradio, Hclick, Henc, Hfile. simpl.
  f_equal. same_state.
Qed.

Lemma summary_keeps_files (inp : Inputs) (df : DataFrame) (F : gmap string blob) :
  preserves (λ s, local_files s = F) (summary_and_footer inp df).
Proof.
  unfold summary_and_footer, df_describe.
  preserves_with ltac:(simpl; auto).
Qed.

(** C4.  When the grid returns fewer rows and the confirm button is not the
    button clicked in this pass, [main_editor] returns the frame the grid
    returned and shows neither a success nor an error message.  The outcome
    goes on to the save: in a pass started by a click on "Save locally", with
    the local destination selected and no encoder or file-system fault, the
    file at the entered path holds the reduced table once the page has run,
    whatever is in the confirmation input. *)
Theorem unconfirmed_deletion_is_saved (inp : Inputs) (df : DataFrame) :
  grid_returns inp →
  rows_deleted inp df →
  clicked_button inp ≠ Some "Confirm Deletion" →
  (∀ s, main_editor inp df s =
          (Ret (grid_frame inp df s),
           set_next_oid S (set_ui (λ l, l ++ gate_shown) s))) ∧
  (clicked_button inp = Some "Save locally" →
   radio_choice inp !! "Save to:" = Some "Local" →
   encode_fault inp = None →
   file_fault inp = None →
   ∀ bucket key s0 s1,
     load_data inp bucket key s0 = (Ret df, s1) →
     local_files (page inp bucket key s0).2 !! entered_path inp
       = Some (Parquet (grid_edit inp (table df)))).
Proof.
  intros Hg Hlt Hnc.
  assert (Hed : ∀ s, main_editor inp df s =
          (Ret (grid_frame inp df s),
           set_next_oid S (set_ui (λ l, l ++ gate_shown) s))).
  { intros s. rewrite main_editor_gate by done. simpl.
    by rewrite bool_decide_eq_false_2. }
  split; [exact Hed |].
  intros Hclick Hradio Henc Hfile bucket key s0 s1 Hload.
  unfold page, assign. rewrite (bind_ret _ _ _ _ _ Hload), bind_modify.
  rewrite (bind_ret _ _ _ _ _ (Hed _)), bind_modify.
  erewrite bind_ret by (by apply save_changes_local).
  erewrite summary_keeps_files; [| reflexivity]. simpl.
  apply lookup_insert_eq.
Qed.

(** ** The Save Dispatcher *)

Ltac unfold_save :=
  unfold save_changes, save_locally, save_to_file, save_locally_attempt,
    save_to_s3, save_to_s3_attempt, write_to_s3, to_parquet_file, to_parquet,
    s3_copy_object, s3_put_object in *.

Lemma save_to_s3_unbound (inp : Inputs) (bucket key : string) (df : DataFrame) (s : state) :
  globals s !! "BUCKET_NAME" = None →
  save_to_s3 inp bucket key df s =
    (Ret (),
     set_ui (λ l, l ++ [UiError "Error saving to S3: name 'BUCKET_NAME' is not defined"])
       (set_globals (insert "backup_key" (PStr (backup_key_on (now inp)))) s)).
Proof.
  intros Hnone. unfold_save. run.
  rewrite lookup_insert_ne by done. rewrite Hnone. simpl. reflexivity.
Qed.

(** The body of the [try] stops at the first argument of [s3.copy_object]. *)
Lemma save_to_s3_attempt_unbound (inp : Inputs) (bucket key : string) (df : DataFrame)
    (s : state) :
  globals s !! "BUCKET_NAME" = None →
  save_to_s3_attempt inp bucket key df s =
    (Raise (Exc NameError "name 'BUCKET_NAME' is not defined"),
     set_globals (insert "backup_key" (PStr (backup_key_on (now inp)))) s).
Proof.
  intros Hnone. unfold_save. run.
  rewrite lookup_insert_ne by done. rewrite Hnone. reflexivity.
Qed.

Lemma save_changes_trace (inp : Inputs) (bucket key : string) (df : DataFrame) (s : state) :
  ∃ new,
    calls (save_changes inp bucket key df s).2 = calls s ++ new ∧
    save_trace bucket key (backup_key_on (now inp)) (globals s !! "BUCKET_NAME")
      (table df) new.
Proof.
  unfold_save. exec. cases.
  all: fields; rewrite <- ?app_assoc; cbn [app].
  all: repeat match goal with
       | H : <[_:=_]> _ !! "BUCKET_NAME" = _ |- _ =>
           rewrite lookup_insert_ne in H by done
       end.
  all: first [ by (exists []; rewrite app_nil_r; split; [done | constructor])
             | by (eexists; split; [reflexivity | econstructor; eassumption])
             | by (eexists; split; [reflexivity | constructor]) ].
Qed.

(** C1.  In every run of the save section, whatever the namespace, the faults
    and the bucket: a call that writes the object at (bucket, key) comes after
    a successful call that copied that object to the backup key of the day,
    in the bucket that [BUCKET_NAME] names, and when a copy call failed no
    call writes the object. *)
Theorem backup_precedes_overwrite (inp : Inputs) (bucket key : string)
    (edited_df : DataFrame) (s : state) :
  ∃ new,
    calls (save_changes inp bucket key edited_df s).2 = calls s ++ new ∧
    (∀ pre c post, new = pre ++ c :: post → writes_primary bucket key c →
       ∃ dst_bucket c',
         globals s !! "BUCKET_NAME" = Some (PStr dst_bucket) ∧
         c' ∈ pre ∧
         backs_up bucket key dst_bucket (backup_key_on (now inp)) c') ∧
    (∀ c, c ∈ new → failed_copy c → ∀ c', c' ∈ new → ¬ writes_primary bucket key c').
Proof.
  destruct (save_changes_trace inp bucket key edited_df s) as (new & Hcalls & Hshape).
  exists new. split; [done |]. split.
  - intros pre c post Hnew (body & ok & ->).
    destruct Hshape as [| | | dst_bucket ok' Hname |];
      destruct pre as [| c1 [| c2 [| c3 pre]]]; simplify_eq/=.
    exists dst_bucket. eexists. split; [done |].
    split; [apply list_elem_of_here | reflexivity].
  - intros c Hc (dst_bucket & src & dst_key & ->) c' Hc' (body & ok & ->).
    rewrite list_elem_of_In in Hc, Hc'.
    destruct Hshape; simpl in *; intuition congruence.
Qed.

Section NoRemoteWrite.

Context (objects : gmap (string * string) blob) (inp : Inputs).

Abbreviation I := (no_remote_write objects inp).

Lemma nrw_emit ev s : ev ≠ UiWidget "Save to S3" → I s → I (set_ui (λ l, l ++ [ev]) s).
Proof.
  intros Hev (Hn & Ho & Hc & Hu). repeat split; simpl; try done.
  rewrite !elem_of_app, !list_elem_of_singleton.
  intros [Hin | Heq] Hclick; [left; by apply Hu | congruence].
Qed.

Lemma nrw_assign name v s :
  name ≠ "BUCKET_NAME" → I s → I (set_globals (insert name v) s).
Proof.
  intros Hname (Hn & Ho & Hc & Hu). repeat split; simpl; try done.
  by rewrite lookup_insert_ne.
Qed.

Lemma nrw_log c ok s :
  ¬ copies_or_puts (c, ok) → I s → I (set_calls (λ l, l ++ [(c, ok)]) s).
Proof.
  intros Hcall (Hn & Ho & Hc & Hu). repeat split; simpl; try done.
  intros c'. rewrite elem_of_app, list_elem_of_singleton.
  intros [Hin | ->]; [by apply Hc | done].
Qed.

Lemma nrw_next_oid f s : I s → I (set_next_oid f s).
Proof. by intros (Hn & Ho & Hc & Hu). Qed.

Lemma nrw_cache f s : I s → I (set_cache f s).
Proof. by intros (Hn & Ho & Hc & Hu). Qed.

Lemma nrw_local_files f s : I s → I (set_local_files f s).
Proof. by intros (Hn & Ho & Hc & Hu). Qed.

Ltac nrw_leaf :=
  first [ apply nrw_emit; [discriminate | assumption]
        | apply nrw_assign; [discriminate | assumption]
        | apply nrw_log; [simpl; tauto | assumption]
        | apply nrw_next_oid; assumption
        | apply nrw_cache; assumption
        | apply nrw_local_files; assumption ].

Lemma nrw_configure : preserves I (configure inp).
Proof. unfold configure, st_secrets. preserves_with nrw_leaf. Qed.

Lemma nrw_load_data bucket key : preserves I (load_data inp bucket key).
Proof.
  unfold load_data, choose_mode, load_attempt, read_from_s3, st_cache_data,
    read_from_s3_body, s3_get_object, pd_read_parquet.
  preserves_with nrw_leaf.
Qed.

Lemma nrw_main_editor df : preserves I (main_editor inp df).
Proof. unfold main_editor. preserves_with nrw_leaf. Qed.

Lemma nrw_summary df : preserves I (summary_and_footer inp df).
Proof. unfold summary_and_footer, df_describe. preserves_with nrw_leaf. Qed.

Lemma nrw_save_button bucket key df :
  preserves I (clicked ← st_button inp "Save to S3";
               if (clicked : bool) then save_to_s3 inp bucket key df else skip).
Proof.
  intros s (Hn & Ho & Hc & Hu). exec.
  destruct (bool_decide _) eqn:Hclick.
  - rewrite save_to_s3_unbound by (fields; done).
    unfold no_remote_write. fields.
    split; [by rewrite lookup_insert_ne |]. split; [done |]. split; [done |].
    intros _ _. unfold name_error_shown. set_solver.
  - apply bool_decide_eq_false_1 in Hclick.
    unfold no_remote_write. fields. repeat split; done.
Qed.

Lemma nrw_save_changes bucket key df : preserves I (save_changes inp bucket key df).
Proof.
  pose proof nrw_save_button.
  unfold save_changes, save_locally, save_to_file, save_locally_attempt,
    to_parquet_file, to_parquet.
  preserves_with nrw_leaf.
Qed.

Lemma nrw_page bucket key : preserves I (page inp bucket key).
Proof.
  unfold page.
  pose proof nrw_load_data. pose proof nrw_main_editor.
  pose proof nrw_save_changes. pose proof nrw_summary.
  preserves_with nrw_leaf.
Qed.

Lemma nrw_app : preserves I (app inp).
Proof.
  unfold app. pose proof nrw_configure. pose proof nrw_page.
  preserves_with nrw_leaf.
Qed.

End NoRemoteWrite.

(** C5.  In every pass of the script as it is (only the Python builtins are
    visible besides what the script binds): the bucket holds after the pass
    what it held before, no copy and no put call is issued, and when the
    "Save to S3" button is rendered and clicked the pass shows the error
    message of the [NameError] on [BUCKET_NAME]. *)
Theorem remote_save_never_reaches_storage (inp : Inputs) (s : state) :
  let s' := (run_pass python_builtins inp s).2 in
  s3_objects s' = s3_objects s ∧
  (∀ c, c ∈ calls s' → ¬ copies_or_puts c) ∧
  (UiWidget "Save to S3" ∈ ui s' → clicked_button inp = Some "Save to S3" →
   name_error_shown ∈ ui s').
Proof.
  assert (H0 : no_remote_write (s3_objects s) inp (fresh_pass python_builtins s)).
  { unfold no_remote_write, fresh_pass. fields.
    split; [by vm_compute |]. split; [done |].
    split; [intros c Hin | intros Hin]; by apply elem_of_nil in Hin. }
  apply nrw_app in H0. destruct H0 as (Hn & Ho & Hc & Hu). done.
Qed.

(** ** The backup key *)

Lemma digit_inj (a b : N) : (a < 10)%N → (b < 10)%N → digit a = digit b → a = b.
Proof.
  intros Ha Hb H. unfold digit in H.
  rewrite !N.mod_small in H by done.
  apply (f_equal N_of_ascii) in H.
  rewrite !N_ascii_embedding in H by lia. lia.
Qed.

Lemma digit_mod (n : N) : digit n = digit (n `mod` 10).
Proof. unfold digit. by rewrite N.Div0.mod_mod. Qed.

Lemma digit_eq_mod (a b : N) : digit a = digit b → (a `mod` 10 = b `mod` 10)%N.
Proof.
  intros H. rewrite (digit_mod a), (digit_mod b) in H.
  apply digit_inj in H; [done | |]; by apply N.mod_lt.
Qed.

(** A number below 10000 is given by its four decimal digits. *)
Lemma four_digits_value (n : N) :
  (n < 10000)%N →
  n = ((n / 1000) `mod` 10 * 1000 + (n / 100) `mod` 10 * 100
       + (n / 10) `mod` 10 * 10 + n `mod` 10)%N.
Proof.
  intros Hn.
  replace (n / 1000)%N with (n / 10 / 10 / 10)%N by (by rewrite !N.Div0.div_div).
  replace (n / 100)%N with (n / 10 / 10)%N by (by rewrite !N.Div0.div_div).
  pose proof (N.div_mod n 10 ltac:(done)) as H0.
  pose proof (N.div_mod (n / 10) 10 ltac:(done)) as H1.
  pose proof (N.div_mod (n / 10 / 10) 10 ltac:(done)) as H2.
  assert (n / 10 / 10 / 10 < 10)%N as H3
    by (repeat apply N.Div0.div_lt_upper_bound; lia).
  rewrite (N.mod_small (n / 10 / 10 / 10)) by done. lia.
Qed.

Lemma two_digits_value (n : N) :
  (n < 100)%N → n = ((n / 10) `mod` 10 * 10 + n `mod` 10)%N.
Proof.
  intros Hn.
  pose proof (N.div_mod n 10 ltac:(done)) as H0.
  assert (n / 10 < 10)%N as H1 by (apply N.Div0.div_lt_upper_bound; lia).
  rewrite (N.mod_small (n / 10)) by done. lia.
Qed.

Lemma two_digits_inj (a b : N) :
  (a < 100)%N → (b < 100)%N → two_digits a = two_digits b → a = b.
Proof.
  intros Ha Hb H. unfold two_digits in H. injection H as H1 H0.
  apply digit_eq_mod in H0, H1.
  rewrite (two_digits_value a Ha), (two_digits_value b Hb). congruence.
Qed.

Lemma four_digits_inj (a b : N) :
  (a < 10000)%N → (b < 10000)%N → four_digits a = four_digits b → a = b.
Proof.
  intros Ha Hb H. unfold four_digits, two_digits in H. injection H as H3 H2 H1 H0.
  apply digit_eq_mod in H0, H1, H2, H3.
  rewrite (four_digits_value a Ha), (four_digits_value b Hb). congruence.
Qed.

Lemma strftime_Ymd_inj (d1 d2 : Date) :
  valid_date d1 → valid_date d2 → strftime_Ymd d1 = strftime_Ymd d2 → d1 = d2.
Proof.
  intros (Hy1 & Hm1 & Hd1) (Hy2 & Hm2 & Hd2) H.
  destruct d1 as [y1 m1 dd1], d2 as [y2 m2 dd2]. simpl in *.
  unfold strftime_Ymd, four_digits, two_digits in H. simpl in H.
  injection H as E1 E2 E3 E4 E5 E6 E7 E8.
  f_equal.
  - apply four_digits_inj; [lia | lia |]. unfold four_digits, two_digits. congruence.
  - apply two_digits_inj; [lia | lia |]. unfold two_digits. congruence.
  - apply two_digits_inj; [lia | lia |]. unfold two_digits. congruence.
Qed.

Lemma spec_backup_key_default (d : Date) :
  spec_backup_key "Controle_de_Processos.parquet" d = backup_key_on d.
Proof. reflexivity. Qed.

Lemma backup_key_on_inj (d1 d2 : Date) :
  valid_date d1 → valid_date d2 → backup_key_on d1 = backup_key_on d2 → d1 = d2.
Proof.
  intros H1 H2 H. apply strftime_Ymd_inj; [done | done |].
  unfold backup_key_on in H. simpl in H. simplify_eq.
  unfold strftime_Ymd, four_digits, two_digits in *. simpl in *. simplify_eq.
  congruence.
Qed.

Lemma save_to_s3_binds_backup_key (inp : Inputs) (bucket key : string) (df : DataFrame)
    (s : state) :
  globals (save_to_s3 inp bucket key df s).2 !! "backup_key"
    = Some (PStr (backup_key_on (now inp))).
Proof.
  unfold_save. exec. cases; fields; apply lookup_insert_eq.
Qed.

(** C6, the claim as stated fails: for the primary key [dados/clientes.csv]
    the save binds [backup_key] to a key built from the fixed name
    [Controle_de_Processos] and the extension [parquet], not to
    [backups/clientes_20261103.csv]. *)
Lemma backup_key_ignores_primary_key :
  globals (save_to_s3 (example_pass "" (Some "Save to S3") "S3")
             "controle-de-processos" "dados/clientes.csv"
             (mkDataFrame 0 three_rows) example_store).2 !! "backup_key"
  ≠ Some (PStr (spec_backup_key "dados/clientes.csv" (mkDate 2026 11 3))).
Proof. vm_compute. discriminate. Qed.

(** C6, amended.  Every run of the "Save to S3" handler binds [backup_key] to
    [backups/Controle_de_Processos_<YYYYMMDD>.parquet] for the day of the
    save, whatever the primary key and whatever the namespace held before:
    the specification's formula applied to the fixed file name
    [Controle_de_Processos.parquet].  Saves on two different days get two
    different backup keys. *)
Theorem backup_key_from_date_alone (inp : Inputs) (bucket key : string)
    (edited_df : DataFrame) (s : state) :
  globals (save_to_s3 inp bucket key edited_df s).2 !! "backup_key"
    = Some (PStr (spec_backup_key "Controle_de_Processos.parquet" (now inp))) ∧
  (∀ inp' bucket' key' edited_df' s',
     valid_date (now inp) → valid_date (now inp') → now inp ≠ now inp' →
     globals (save_to_s3 inp' bucket' key' edited_df' s').2 !! "backup_key"
       ≠ globals (save_to_s3 inp bucket key edited_df s).2 !! "backup_key").
Proof.
  split.
  - rewrite spec_backup_key_default. apply save_to_s3_binds_backup_key.
  - intros inp' bucket' key' edited_df' s' Hd Hd' Hne.
    rewrite !save_to_s3_binds_backup_key. intros Heq.
    assert (backup_key_on (now inp') = backup_key_on (now inp)) as E by congruence.
    apply backup_key_on_inj in E; [| done | done]. congruence.
Qed.

(** When the handler's body ends normally, it has shown two messages, both
    formatted from the primary address. *)
Lemma save_to_s3_success_messages (inp : Inputs) (bucket key : string) (df : DataFrame)
    (s s' : state) :
  save_to_s3_attempt inp bucket key df s = (Ret (), s') →
  ui s' = ui s ++ [UiSuccess ("Saved to S3: s3://" +:+ bucket +:+ "/" +:+ key);
                   UiInfo ("Backup created at s3://" +:+ bucket +:+ "/" +:+ key)].
Proof.
  unfold_save. exec. intros H. cases. fields. by rewrite <- app_assoc.
Qed.

(** A click on "Save to S3" on 3 November 2026.  As the script is, the only
    message is the [NameError] one and no backup is made.  Were [BUCKET_NAME]
    bound to the bucket, the save would succeed and copy the table to
    [backups/Controle_de_Processos_20261103.parquet], and both messages would
    name the primary address: line 115 formats from [key], not from
    [backup_key]. *)
Lemma backup_message_names_primary_key :
  let pass := example_pass "" (Some "Save to S3") "S3" in
  let actual := (run_pass python_builtins pass example_store).2 in
  let repaired := (run_pass with_bucket_name pass example_store).2 in
  List.filter is_report (ui actual) = [name_error_shown] ∧
  s3_objects actual
    !! ("controle-de-processos", "backups/Controle_de_Processos_20261103.parquet")
    = None ∧
  List.filter is_report (ui repaired) =
    [UiSuccess "Saved to S3: s3://controle-de-processos/Controle_de_Processos.parquet";
     UiInfo "Backup created at s3://controle-de-processos/Controle_de_Processos.parquet"] ∧
  s3_objects repaired
    !! ("controle-de-processos", "backups/Controle_de_Processos_20261103.parquet")
    = Some (Parquet three_rows) ∧
  s3_objects repaired !! ("controle-de-processos", "Controle_de_Processos.parquet")
    = Some (Parquet two_rows).
Proof.
  intros pass actual repaired.
  split; [| split; [| split; [| split]]]; vm_compute; reflexivity.
Qed.

(** C9.  The save section always ends normally, for either destination and
    whatever fails; it leaves the binding of [edited_df] as it was; a storage
    call or file write that failed during it is followed by an error message,
    the last thing the section shows.  An exception raised in the body of
    either [try] is turned into the error message that carries its text. *)
Theorem save_never_raises (inp : Inputs) (bucket key : string) (edited_df : DataFrame)
    (s : state) :
  (∃ s',
     save_changes inp bucket key edited_df s = (Ret (), s') ∧
     globals s' !! "edited_df" = globals s !! "edited_df" ∧
     (∀ c, (c, false) ∈ calls s' → (c, false) ∉ calls s →
        ∃ msg, last (ui s') = Some (UiError msg))) ∧
  (∀ e s1,
     save_to_s3_attempt inp bucket key edited_df s = (Raise e, s1) →
     save_to_s3 inp bucket key edited_df s =
       (Ret (), set_ui (λ l, l ++ [UiError ("Error saving to S3: " +:+ str e)]) s1)) ∧
  (∀ path e s1,
     save_locally_attempt inp edited_df path s = (Raise e, s1) →
     save_to_file inp edited_df path s =
       (Ret (), set_ui (λ l, l ++ [UiError ("Error saving locally: " +:+ str e)]) s1)).
Proof.
  split; [| split].
  - unfold_save. exec. cases.
    all: eexists; split; [reflexivity |]; fields.
    all: split; [by rewrite ?lookup_insert_ne by done |].
    all: intros c Hin Hnotin.
    all: first [ by (eexists; apply last_snoc)
               | exfalso; rewrite ?elem_of_app, ?list_elem_of_singleton in Hin;
                 intuition congruence ].
  - intros e s1 H. unfold save_to_s3, try_except. rewrite H. reflexivity.
  - intros path e s1 H. unfold save_to_file, try_except. rewrite H. reflexivity.
Qed.

(** ** The Load Selector *)

Ltac unfold_load :=
  unfold load_data, choose_mode, load_attempt, read_from_s3, st_cache_data,
    read_from_s3_body, s3_get_object, pd_read_parquet in *.

(** The ways a load fails. *)
Lemma load_attempt_transport_fault (inp : Inputs) (bucket key msg : string) (s : state) :
  cache s !! (bucket, key) = None →
  get_fault inp = Some msg →
  load_attempt inp "Use S3 file" bucket key s =
    (Raise (Exc ClientError msg),
     set_calls (λ l, l ++ [(GetObject bucket key, false)]) s).
Proof. intros Hc Hf. unfold_load. run. by rewrite Hc, Hf. Qed.

Lemma load_attempt_missing_object (inp : Inputs) (bucket key : string) (s : state) :
  cache s !! (bucket, key) = None →
  get_fault inp = None →
  s3_objects s !! (bucket, key) = None →
  load_attempt inp "Use S3 file" bucket key s =
    (Raise (Exc ClientError "NoSuchKey: The specified key does not exist."),
     set_calls (λ l, l ++ [(GetObject bucket key, false)]) s).
Proof. intros Hc Hf Ho. unfold_load. run. by rewrite Hc, Hf, Ho. Qed.

Lemma load_attempt_undecodable_object (inp : Inputs) (bucket key raw : string) (s : state) :
  cache s !! (bucket, key) = None →
  get_fault inp = None →
  s3_objects s !! (bucket, key) = Some (Junk raw) →
  load_attempt inp "Use S3 file" bucket key s =
    (Raise (Exc ArrowInvalid "Parquet magic bytes not found in footer."),
     set_calls (λ l, l ++ [(GetObject bucket key, true)]) s).
Proof. intros Hc Hf Ho. unfold_load. run. by rewrite Hc, Hf, Ho. Qed.

Lemma load_attempt_undecodable_upload (inp : Inputs) (mode bucket key raw : string)
    (s : state) :
  mode ≠ "Use S3 file" →
  uploaded_file inp = Some (Junk raw) →
  load_attempt inp mode bucket key s =
    (Raise (Exc ArrowInvalid "Parquet magic bytes not found in footer."),
     set_globals (insert "uploaded" (PObject "UploadedFile"))
       (set_ui (λ l, l ++ [UiWidget "Upload a Parquet file"]) s)).
Proof.
  intros Hm Hu. unfold_load. run. rewrite decide_False by done. by rewrite Hu.
Qed.

(** What a failed load attempt has done: rendered the upload control at most,
    read the object at most, and bound no table. *)
Lemma load_attempt_raise (inp : Inputs) (mode bucket key : string) (s s1 : state) (e : exn) :
  load_attempt inp mode bucket key s = (Raise e, s1) →
  globals s1 !! "df" = globals s !! "df" ∧
  (ui s1 = ui s ∨ ui s1 = ui s ++ [UiWidget "Upload a Parquet file"]) ∧
  (calls s1 = calls s ∨ ∃ ok, calls s1 = calls s ++ [(GetObject bucket key, ok)]).
Proof.
  unfold_load. exec. intros H. cases.
  all: fields; (split; [by rewrite ?lookup_insert_ne by done |]); split; eauto.
Qed.

(** C8.  When the load attempt of either mode raises an exception, the page
    stops there: the pass ends with [st.stop()] in the state the failure left,
    plus the one error message that carries the exception's text.  No table
    is bound to [df]; besides the sidebar header and the mode selector the
    pass has rendered the upload control at most and issued the one read at
    most, so neither the editor nor the save section ran. *)
Theorem load_failure_halts_pass (inp : Inputs) (bucket key mode : string)
    (s s0 s1 : state) (e : exn) :
  choose_mode inp s = (Ret mode, s0) →
  load_attempt inp mode bucket key s0 = (Raise e, s1) →
  page inp bucket key s =
    (Halt, set_ui (λ l, l ++ [UiError ("Error loading data: " +:+ str e)]) s1) ∧
  globals s1 !! "df" = globals s !! "df" ∧
  (∃ shown, ui s1 = ui s ++ [UiSidebarHeader "Load Data"; UiWidget "Choose load mode:"]
                         ++ shown ∧
            (shown = [] ∨ shown = [UiWidget "Upload a Parquet file"])) ∧
  (calls s1 = calls s ∨ ∃ ok, calls s1 = calls s ++ [(GetObject bucket key, ok)]).
Proof.
  intros Hmode Hload.
  destruct (load_attempt_raise _ _ _ _ _ _ _ Hload) as (Hdf & Hui & Hcalls).
  split; [| split; [| split]].
  - unfold page, load_data.
    erewrite bind_halt; [reflexivity |].
    erewrite bind_ret by exact Hmode.
    unfold try_except. rewrite Hload. reflexivity.
  - rewrite Hdf. unfold choose_mode in Hmode. revert Hmode. run.
    intros [= <- <-]. simpl. by rewrite lookup_insert_ne.
  - unfold choose_mode in Hmode. revert Hmode. run. intros [= <- <-].
    simpl in *. destruct Hui as [-> | ->].
    + exists []. rewrite <- app_assoc. simpl. eauto.
    + exists [UiWidget "Upload a Parquet file"]. rewrite <- !app_assoc. simpl. eauto.
  - unfold choose_mode in Hmode. revert Hmode. run. intros [= <- <-].
    simpl in *. done.
Qed.

(** ** The memo table of [read_from_s3] *)

(** A hit: a new frame with the stored table, and nothing else happens. *)
Lemma read_from_s3_hit (inp : Inputs) (bucket key : string) (s : state) (t : Table) :
  cache s !! (bucket, key) = Some t →
  read_from_s3 inp bucket key s = (Ret (mkDataFrame (next_oid s) t), set_next_oid S s).
Proof. intros Hc. unfold_load. run. by rewrite Hc. Qed.

(** A miss that succeeds stores what it read. *)
Lemma read_from_s3_miss (inp : Inputs) (bucket key : string) (s s' : state)
    (df : DataFrame) :
  cache s !! (bucket, key) = None →
  read_from_s3 inp bucket key s = (Ret df, s') →
  cache s' !! (bucket, key) = Some (table df) ∧
  s3_objects s !! (bucket, key) = Some (Parquet (table df)).
Proof.
  intros Hc. unfold_load. exec. rewrite Hc.
  intros H. cases. fields.
  split; [apply lookup_insert_eq | done].
Qed.

Section CacheEntry.

Context (address : string * string) (t : Table) (inp : Inputs).

Abbreviation I := (λ s : state, cache s !! address = Some t).

Ltac entry_leaf := simpl; assumption.

Lemma entry_read_from_s3 bucket key : preserves I (read_from_s3 inp bucket key).
Proof.
  intros s Hs. unfold_load. exec.
  destruct (cache s !! (bucket, key)) eqn:Hc; [done |].
  cases; fields; try done.
  rewrite lookup_insert_ne; [done |]. intros <-. congruence.
Qed.

Lemma entry_configure : preserves I (configure inp).
Proof. unfold configure, st_secrets. preserves_with entry_leaf. Qed.

Lemma entry_load_data bucket key : preserves I (load_data inp bucket key).
Proof.
  pose proof entry_read_from_s3.
  unfold load_data, choose_mode, load_attempt, pd_read_parquet.
  preserves_with entry_leaf.
Qed.

Lemma entry_main_editor df : preserves I (main_editor inp df).
Proof. unfold main_editor. preserves_with entry_leaf. Qed.

Lemma entry_save_changes bucket key df : preserves I (save_changes inp bucket key df).
Proof. unfold_save. preserves_with entry_leaf. Qed.

Lemma entry_summary df : preserves I (summary_and_footer inp df).
Proof. unfold summary_and_footer, df_describe. preserves_with entry_leaf. Qed.

Lemma entry_app : preserves I (app inp).
Proof.
  pose proof entry_configure. pose proof entry_load_data.
  pose proof entry_main_editor. pose proof entry_save_changes.
  pose proof entry_summary.
  unfold app, page. preserves_with entry_leaf.
Qed.

End CacheEntry.

Lemma entry_run_session (ns : gmap string pyval) (inps : list Inputs) (s : state)
    (address : string * string) (t : Table) :
  cache s !! address = Some t →
  cache (run_session ns inps s) !! address = Some t.
Proof.
  revert s. induction inps as [| inp inps IH]; intros s Hs; [done |].
  simpl. apply IH. unfold run_pass. by apply entry_app.
Qed.

(** C10.  Once a remote read of (bucket, key) has succeeded, every later
    [read_from_s3] of the same address in the session, after any passes with
    any inputs in any namespace, returns a frame holding the table read first,
    and does nothing else: no storage call is issued and the table is not
    compared with what the bucket holds by then. *)
Theorem cached_read_is_never_refreshed (ns : gmap string pyval) (inp0 : Inputs)
    (bucket key : string) (s0 s1 : state) (df0 : DataFrame)
    (later : list Inputs) (inp : Inputs) :
  cache s0 !! (bucket, key) = None →
  read_from_s3 inp0 bucket key s0 = (Ret df0, s1) →
  let s := fresh_pass ns (run_session ns later s1) in
  s3_objects s0 !! (bucket, key) = Some (Parquet (table df0)) ∧
  read_from_s3 inp bucket key s = (Ret (mkDataFrame 0 (table df0)), set_next_oid S s) ∧
  calls (set_next_oid S s) = [].
Proof.
  intros Hmiss Hread s.
  destruct (read_from_s3_miss _ _ _ _ _ _ Hmiss Hread) as [Hstored Hobj].
  split; [done |]. split; [| done].
  apply (read_from_s3_hit inp bucket key s).
  unfold s. simpl. by apply entry_run_session.
Qed.

(** ** The theorems at work on the small deployment *)

(** With [BUCKET_NAME] bound, a click on "Save to S3" copies, then writes. *)
Example remote_save_copies_then_writes :
  calls (save_changes (example_pass "" (Some "Save to S3") "S3")
           "controle-de-processos" "Controle_de_Processos.parquet"
           (mkDataFrame 0 two_rows)
           (fresh_pass with_bucket_name example_store)).2
  = [(CopyObject "controle-de-processos"
        ("controle-de-processos", "Controle_de_Processos.parquet")
        "backups/Controle_de_Processos_20261103.parquet", true);
     (PutObject "controle-de-processos" "Controle_de_Processos.parquet"
        (Parquet two_rows), true)].
Proof. vm_compute. reflexivity. Qed.

(** Scenario B: one of three rows deleted, code "999", confirm clicked. *)
Lemma wrong_code_restores_original_witness :
  ∃ out s',
    main_editor (example_pass "999" (Some "Confirm Deletion") "S3")
      (mkDataFrame 0 three_rows) (set_next_oid S example_store) = (Ret out, s') ∧
    table out = three_rows ∧
    (1 < oid out)%nat ∧
    ui s' = gate_shown ++ [UiError "Incorrect code. No rows were deleted."].
Proof.
  apply (wrong_code_restores_original
           (example_pass "999" (Some "Confirm Deletion") "S3")
           (mkDataFrame 0 three_rows) (set_next_oid S example_store)).
  - left. reflexivity.
  - unfold rows_deleted. simpl. lia.
  - reflexivity.
  - vm_compute. discriminate.
Defined.

(** Scenario C: one of three rows deleted, code "125", confirm clicked. *)
Lemma right_code_accepts_deletion_witness :
  ∃ s',
    main_editor (example_pass "125" (Some "Confirm Deletion") "S3")
      (mkDataFrame 0 three_rows) (set_next_oid S example_store)
    = (Ret (mkDataFrame 1 two_rows), s') ∧
    ui s' = gate_shown ++ [UiSuccess "Deleted 1 row(s)"].
Proof.
  apply (right_code_accepts_deletion
           (example_pass "125" (Some "Confirm Deletion") "S3")
           (mkDataFrame 0 three_rows) (set_next_oid S example_store)).
  - left. reflexivity.
  - unfold rows_deleted. simpl. lia.
  - reflexivity.
  - reflexivity.
Defined.

(** One of three rows deleted, nothing typed in the confirmation input, and
    the click is on "Save locally": the file holds two rows. *)
Lemma unconfirmed_deletion_is_saved_witness :
  local_files (page (example_pass "" (Some "Save locally") "Local")
                 "controle-de-processos" "Controle_de_Processos.parquet"
                 example_store).2
    !! "Controle_de_Processos_edited.parquet"
  = Some (Parquet two_rows).
Proof.
  refine (proj2 (unconfirmed_deletion_is_saved
                   (example_pass "" (Some "Save locally") "Local")
                   (mkDataFrame 0 three_rows) _ _ _)
            _ _ _ _ "controle-de-processos" "Controle_de_Processos.parquet"
            example_store
            (load_data (example_pass "" (Some "Save locally") "Local")
               "controle-de-processos" "Controle_de_Processos.parquet"
               example_store).2 _).
  - left. reflexivity.
  - unfold rows_deleted. simpl. lia.
  - discriminate.
  - reflexivity.
  - reflexivity.
  - reflexivity.
  - reflexivity.
  - vm_compute. reflexivity.
Defined.

(** The bucket is empty: the remote load fails and the pass stops. *)
Lemma load_failure_halts_pass_witness :
  let inp := example_pass "" None "S3" in
  let bucket := "controle-de-processos" in
  let key := "Controle_de_Processos.parquet" in
  let empty := mkState ∅ ∅ ∅ [] [] python_builtins 0 in
  let s1 := set_calls (λ l, l ++ [(GetObject bucket key, false)])
              (choose_mode inp empty).2 in
  page inp bucket key empty
  = (Halt,
     set_ui (λ l, l ++ [UiError "Error loading data: NoSuchKey: The specified key does not exist."])
       s1).
Proof.
  intros inp bucket key empty s1.
  refine (proj1 (load_failure_halts_pass inp bucket key "Use S3 file" empty
                   (choose_mode inp empty).2 s1
                   (Exc ClientError "NoSuchKey: The specified key does not exist.")
                   _ _)).
  - vm_compute. reflexivity.
  - apply load_attempt_missing_object; vm_compute; reflexivity.
Defined.

(** A stale read: the table is read and cached, a later pass saves the
    two-row table over the object, and the next read still returns three
    rows. *)
Lemma cached_read_is_never_refreshed_witness :
  let inp := example_pass "" (Some "Save to S3") "S3" in
  let bucket := "controle-de-processos" in
  let key := "Controle_de_Processos.parquet" in
  let s1 := (read_from_s3 inp bucket key example_store).2 in
  let s := fresh_pass with_bucket_name (run_session with_bucket_name [inp] s1) in
  s3_objects s !! (bucket, key) = Some (Parquet two_rows) ∧
  read_from_s3 inp bucket key s = (Ret (mkDataFrame 0 three_rows), set_next_oid S s).
Proof.
  intros inp bucket key s1 s. split; [vm_compute; reflexivity |].
  exact (proj1 (proj2 (cached_read_is_never_refreshed with_bucket_name inp bucket key
                         example_store s1 (mkDataFrame 0 three_rows) [inp] inp
                         eq_refl eq_refl))).
Defined.

(** * More of the script *)

(** ** The editor without a deletion, and without an editor *)

(** X1.  When the grid returns at least as many rows as it was given,
    [main_editor] returns the frame of the grid and renders nothing but the
    subheader and the grid: no confirmation input, no button, no message,
    whatever is typed or clicked. *)
Theorem no_deletion_no_gate (inp : Inputs) (df : DataFrame) (s : state) :
  grid_returns inp →
  ¬ rows_deleted inp df →
  main_editor inp df s =
    (Ret (grid_frame inp df s),
     set_next_oid S
       (set_ui (λ l, l ++ [UiSubheader "Edit Table"; UiWidget "data_editor"]) s)).
Proof.
  intros Hg Hge. unfold main_editor, grid_frame.
  assert (Hlen : ∀ n, ¬ len (mkDataFrame n (grid_edit inp (table df))) < len df)
    by (intros n Hlt; apply Hge; by apply len_lt_iff in Hlt).
  run.
  destruct (has_data_editor inp) eqn:Hd; simpl.
  - rewrite decide_False by apply Hlen. f_equal. same_state.
  - destruct Hg as [Hg | ->]; [congruence |]. simpl.
    rewrite decide_False by apply Hlen. f_equal. same_state.
Qed.

Lemma no_deletion_no_gate_witness :
  main_editor (example_upload_pass None rename_first_client (Some "Confirm Deletion"))
    (mkDataFrame 0 three_rows) (set_next_oid S example_store)
  = (Ret (mkDataFrame 1 (rename_first_client three_rows)),
     set_next_oid S
       (set_ui (λ l, l ++ [UiSubheader "Edit Table"; UiWidget "data_editor"])
          (set_next_oid S example_store))).
Proof.
  apply (no_deletion_no_gate
           (example_upload_pass None rename_first_client (Some "Confirm Deletion"))
           (mkDataFrame 0 three_rows) (set_next_oid S example_store)).
  - left. reflexivity.
  - unfold rows_deleted. simpl. lia.
Defined.

(** X3.  With neither editor function the [AttributeError] of the fallback is
    not caught: [main_editor] raises it after the subheader, and a page whose
    load succeeded ends with it, having rendered no save control, issued no
    further storage call and written nothing. *)
Theorem no_editor_ends_the_page (inp : Inputs) (bucket key : string)
    (s s1 : state) (df : DataFrame) :
  has_data_editor inp = false →
  has_experimental_data_editor inp = false →
  load_data inp bucket key s = (Ret df, s1) →
  page inp bucket key s =
    (Raise (Exc AttributeError
              "module 'streamlit' has no attribute 'experimental_data_editor'"),
     set_ui (λ l, l ++ [UiSubheader "Edit Table"])
       (set_globals (insert "main_editor" (PObject "function")) s1)).
Proof.
  intros Hd He Hload. unfold page, assign.
  rewrite (bind_ret _ _ _ _ _ Hload), bind_modify.
  erewrite bind_raise; [reflexivity |].
  unfold main_editor. run. rewrite Hd, He. simpl. reflexivity.
Qed.

Lemma no_editor_ends_the_page_witness :
  let inp := with_editors false false (example_pass "" None "S3") in
  let bucket := "controle-de-processos" in
  let key := "Controle_de_Processos.parquet" in
  page inp bucket key example_store =
    (Raise (Exc AttributeError
              "module 'streamlit' has no attribute 'experimental_data_editor'"),
     set_ui (λ l, l ++ [UiSubheader "Edit Table"])
       (set_globals (insert "main_editor" (PObject "function"))
          (load_data inp bucket key example_store).2)).
Proof.
  intros inp bucket key.
  refine (no_editor_ends_the_page inp bucket key example_store
            (load_data inp bucket key example_store).2 (mkDataFrame 0 three_rows)
            eq_refl eq_refl _).
  vm_compute. reflexivity.
Defined.

(** X4.  What [main_editor] returns, in every case where it returns: after a
    deletion, a click on the confirm button and a code other than "125" it is
    a copy of the original, allocated after the frame of the grid; in every
    other case it is the frame of the grid itself. *)
Theorem editor_outcome (inp : Inputs) (df out : DataFrame) (s s' : state) :
  main_editor inp df s = (Ret out, s') →
  (rows_deleted inp df ∧ clicked_button inp = Some "Confirm Deletion" ∧
   entered_code inp ≠ "125" →
   out = mkDataFrame (S (next_oid s)) (table df)) ∧
  (¬ (rows_deleted inp df ∧ clicked_button inp = Some "Confirm Deletion" ∧
      entered_code inp ≠ "125") →
   out = grid_frame inp df s).
Proof.
  intros Hrun.
  assert (Hg : grid_returns inp).
  { unfold grid_returns. revert Hrun. unfold main_editor. run.
    destruct (has_data_editor inp); [by left |].
    destruct (has_experimental_data_editor inp); [by right |]. simpl. done. }
  assert (rows_deleted inp df ∨ ¬ rows_deleted inp df) as [Hlt | Hge]
    by (unfold rows_deleted; lia).
  - rewrite main_editor_gate in Hrun by done. simpl in Hrun.
    destruct (bool_decide _) eqn:Hclick.
    + apply bool_decide_eq_true_1 in Hclick.
      destruct (decide _) as [Hcode | Hcode]; simplify_eq.
      * split; [intros (_ & _ & Hne); done | done].
      * split; [done | intros Hnot; destruct Hnot; done].
    + apply bool_decide_eq_false_1 in Hclick. simplify_eq.
      split; [intros (_ & Hyes & _); done | done].
  - split; [intros (Hlt & _); done |]. intros _.
    revert Hrun. unfold main_editor, grid_frame. run.
    assert (Hlen : ∀ n, ¬ len (mkDataFrame n (grid_edit inp (table df))) < len df)
      by (intros n Hlt; apply Hge; by apply len_lt_iff in Hlt).
    destruct (has_data_editor inp); simpl.
    + rewrite decide_False by apply Hlen. by intros [= <- _].
    + destruct (has_experimental_data_editor inp); simpl; [| done].
      rewrite decide_False by apply Hlen. by intros [= <- _].
Qed.

(** Scenario B again: with code "999" the outcome is the copy of the three
    rows, allocated second. *)
Lemma editor_outcome_witness :
  let inp := example_pass "999" (Some "Confirm Deletion") "S3" in
  let df := mkDataFrame 0 three_rows in
  let s := set_next_oid S example_store in
  let out := mkDataFrame 2 three_rows in
  main_editor inp df s = (Ret out, (main_editor inp df s).2) ∧
  out = mkDataFrame (S (next_oid s)) (table df).
Proof.
  intros inp df s out.
  assert (main_editor inp df s = (Ret out, (main_editor inp df s).2)) as Hrun
    by (vm_compute; reflexivity).
  split; [exact Hrun |].
  refine (proj1 (editor_outcome inp df out s (main_editor inp df s).2 Hrun) _).
  split; [unfold rows_deleted; simpl; lia |].
  split; [reflexivity | vm_compute; discriminate].
Defined.

(** ** The two load modes *)

(** The mode selector, run. *)
Lemma choose_mode_run (inp : Inputs) (s : state) :
  choose_mode inp s =
    (Ret (selected_mode inp),
     set_globals (insert "mode" (PStr (selected_mode inp)))
       (set_ui (λ l, l ++ [UiSidebarHeader "Load Data"; UiWidget "Choose load mode:"]) s)).
Proof. unfold choose_mode, selected_mode. exec. f_equal. same_state. Qed.

(** X5.  Upload mode with no file in the control: the page stops with the
    prompt, which is an information and not an error; it has rendered the
    sidebar only, read nothing from the bucket and left the memo table, the
    bucket and the local files as they were. *)
Theorem upload_without_file_stops (inp : Inputs) (bucket key : string) (s : state) :
  selected_mode inp ≠ "Use S3 file" →
  uploaded_file inp = None →
  page inp bucket key s =
    (Halt,
     set_globals (λ g, <["uploaded" := PObject "None"]>
                         (<["mode" := PStr (selected_mode inp)]> g))
       (set_ui (λ l, l ++ [UiSidebarHeader "Load Data"; UiWidget "Choose load mode:";
                           UiWidget "Upload a Parquet file";
                           UiSidebarInfo "Please upload a file or use S3 file"]) s)).
Proof.
  intros Hmode Hfile. unfold page, load_data.
  erewrite bind_halt; [reflexivity |].
  rewrite (bind_ret _ _ _ _ _ (choose_mode_run inp s)).
  unfold load_attempt. rewrite decide_False by done.
  exec. rewrite Hfile. f_equal. same_state.
Qed.

Lemma upload_without_file_stops_witness :
  let inp := example_upload_pass None rename_first_client None in
  page inp "controle-de-processos" "Controle_de_Processos.parquet" example_store =
    (Halt,
     set_globals (λ g, <["uploaded" := PObject "None"]>
                         (<["mode" := PStr (selected_mode inp)]> g))
       (set_ui (λ l, l ++ [UiSidebarHeader "Load Data"; UiWidget "Choose load mode:";
                           UiWidget "Upload a Parquet file";
                           UiSidebarInfo "Please upload a file or use S3 file"])
          example_store)).
Proof.
  intros inp.
  apply (upload_without_file_stops inp "controle-de-processos"
           "Controle_de_Processos.parquet" example_store).
  - vm_compute. discriminate.
  - reflexivity.
Defined.

(** X6.  Upload mode with a Parquet file: the load returns a new frame with
    the table of the file and reports it; it issues no storage call and
    leaves the bucket and the memo table alone, whatever they hold for
    (bucket, key). *)
Theorem upload_reads_the_file_only (inp : Inputs) (bucket key : string) (s : state)
    (t : Table) :
  selected_mode inp ≠ "Use S3 file" →
  uploaded_file inp = Some (Parquet t) →
  ∃ s',
    load_data inp bucket key s = (Ret (mkDataFrame (next_oid s) t), s') ∧
    calls s' = calls s ∧ s3_objects s' = s3_objects s ∧ cache s' = cache s ∧
    ui s' = ui s ++ [UiSidebarHeader "Load Data"; UiWidget "Choose load mode:";
                     UiWidget "Upload a Parquet file";
                     UiSidebarSuccess "File uploaded and loaded"].
Proof.
  intros Hmode Hfile. unfold load_data.
  rewrite (bind_ret _ _ _ _ _ (choose_mode_run inp s)).
  unfold load_attempt, pd_read_parquet. rewrite decide_False by done.
  exec. rewrite Hfile. eexists. split; [reflexivity |]. fields.
  repeat split. by rewrite <- !app_assoc.
Qed.

Lemma upload_reads_the_file_only_witness :
  let inp := example_upload_pass (Some (Parquet two_rows)) rename_first_client None in
  ∃ s',
    load_data inp "controle-de-processos" "Controle_de_Processos.parquet" example_store
      = (Ret (mkDataFrame 0 two_rows), s') ∧
    calls s' = [] ∧ s3_objects s' = s3_objects example_store ∧ cache s' = ∅ ∧
    ui s' = [] ++ [UiSidebarHeader "Load Data"; UiWidget "Choose load mode:";
                   UiWidget "Upload a Parquet file";
                   UiSidebarSuccess "File uploaded and loaded"].
Proof.
  intros inp.
  apply (upload_reads_the_file_only inp "controle-de-processos"
           "Controle_de_Processos.parquet" example_store two_rows).
  - vm_compute. discriminate.
  - reflexivity.
Defined.

(** X7.  Remote mode, nothing cached, no transport fault and a Parquet object
    at (bucket, key): the load returns a new frame with the table of the
    object after exactly one read, stores the table in the memo table under
    (bucket, key) and reports the address. *)
Theorem remote_load_reads_the_object_once (inp : Inputs) (bucket key : string)
    (s : state) (t : Table) :
  selected_mode inp = "Use S3 file" →
  cache s !! (bucket, key) = None →
  get_fault inp = None →
  s3_objects s !! (bucket, key) = Some (Parquet t) →
  ∃ s',
    load_data inp bucket key s = (Ret (mkDataFrame (next_oid s) t), s') ∧
    calls s' = calls s ++ [(GetObject bucket key, true)] ∧
    cache s' = <[(bucket, key) := t]> (cache s) ∧
    s3_objects s' = s3_objects s ∧
    ui s' = ui s ++ [UiSidebarHeader "Load Data"; UiWidget "Choose load mode:";
                     UiSidebarSuccess ("Loaded from S3: s3://" +:+ bucket +:+ "/" +:+ key)].
Proof.
  intros Hmode Hmiss Hfault Hobj. unfold load_data.
  rewrite (bind_ret _ _ _ _ _ (choose_mode_run inp s)).
  rewrite Hmode. unfold load_attempt. rewrite decide_True by done.
  unfold_load. exec. fields.
  repeat (first [rewrite Hmiss | rewrite Hfault | rewrite Hobj]; exec; fields).
  eexists. split; [reflexivity |]. fields.
  repeat split. by rewrite <- !app_assoc.
Qed.

Lemma remote_load_reads_the_object_once_witness :
  let inp := example_pass "" None "S3" in
  let bucket := "controle-de-processos" in
  let key := "Controle_de_Processos.parquet" in
  ∃ s',
    load_data inp bucket key example_store = (Ret (mkDataFrame 0 three_rows), s') ∧
    calls s' = [] ++ [(GetObject bucket key, true)] ∧
    cache s' = <[(bucket, key) := three_rows]> ∅ ∧
    s3_objects s' = s3_objects example_store ∧
    ui s' = [] ++ [UiSidebarHeader "Load Data"; UiWidget "Choose load mode:";
                   UiSidebarSuccess ("Loaded from S3: s3://" +:+ bucket +:+ "/" +:+ key)].
Proof.
  intros inp bucket key.
  apply (remote_load_reads_the_object_once inp bucket key example_store three_rows).
  - vm_compute. reflexivity.
  - vm_compute. reflexivity.
  - reflexivity.
  - vm_compute. reflexivity.
Defined.

(** X8.  Round trip through the bucket: when neither the encoder nor the
    storage fails, what [write_to_s3] wrote at (bucket, key) is what the body
    of [read_from_s3] reads back from there, whatever the bucket held
    before. *)
Theorem write_then_read_round_trip (inp : Inputs) (df : DataFrame) (bucket key : string)
    (s : state) :
  encode_fault inp = None →
  put_fault inp = None →
  get_fault inp = None →
  ∃ s1 s2 back,
    write_to_s3 inp df bucket key s = (Ret true, s1) ∧
    read_from_s3_body inp bucket key s1 = (Ret back, s2) ∧
    table back = table df ∧
    s3_objects s2 = <[(bucket, key) := Parquet (table df)]> (s3_objects s).
Proof.
  intros Henc Hput Hget.
  eexists _, _, _. split; [| split; [| split]].
  - unfold write_to_s3, to_parquet, s3_put_object. rewrite Henc, Hput.
    exec. reflexivity.
  - unfold read_from_s3_body, s3_get_object, pd_read_parquet. rewrite Hget.
    exec. fields. rewrite lookup_insert_eq. exec. reflexivity.
  - reflexivity.
  - reflexivity.
Qed.

Lemma write_then_read_round_trip_witness :
  let inp := example_pass "" None "S3" in
  ∃ s1 s2 back,
    write_to_s3 inp (mkDataFrame 7 two_rows) "controle-de-processos"
      "Controle_de_Processos.parquet" example_store = (Ret true, s1) ∧
    read_from_s3_body inp "controle-de-processos" "Controle_de_Processos.parquet" s1
      = (Ret back, s2) ∧
    table back = two_rows ∧
    s3_objects s2 =
      <[("controle-de-processos", "Controle_de_Processos.parquet") := Parquet two_rows]>
        (s3_objects example_store).
Proof.
  intros inp.
  apply (write_then_read_round_trip inp (mkDataFrame 7 two_rows)
           "controle-de-processos" "Controle_de_Processos.parquet" example_store);
    reflexivity.
Defined.

(** ** The two destinations *)

(** X9.  Round trip through a local file: a click on "Save locally" with the
    local destination selected and no fault writes a file at the entered path
    that [pd.read_parquet] decodes to the table of the outcome; the bucket and
    the memo table are not touched and the only call is the file write. *)
Theorem local_save_round_trip (inp : Inputs) (bucket key : string) (edited_df : DataFrame)
    (s : state) :
  selected_destination inp ≠ "S3" →
  clicked_button inp = Some "Save locally" →
  encode_fault inp = None →
  file_fault inp = None →
  ∃ s' file back s'',
    save_changes inp bucket key edited_df s = (Ret (), s') ∧
    local_files s' !! entered_path inp = Some file ∧
    pd_read_parquet file s' = (Ret back, s'') ∧
    table back = table edited_df ∧
    s3_objects s' = s3_objects s ∧ cache s' = cache s ∧
    calls s' = calls s ++ [(FileWrite (entered_path inp) file, true)] ∧
    last (ui s') = Some (UiSuccess ("Saved locally as " +:+ entered_path inp)).
Proof.
  intros Hdest Hclick Henc Hfile.
  unfold save_changes. fold (selected_destination inp).
  unfold save_locally, save_to_file, save_locally_attempt, to_parquet_file, to_parquet,
    entered_path.
  exec. fold (selected_destination inp). rewrite decide_False by done.
  rewrite Hclick, Henc, Hfile. rewrite bool_decide_eq_true_2 by done. exec.
  eexists _, (Parquet (table edited_df)), _, _.
  split; [reflexivity |]. fields.
  split; [apply lookup_insert_eq |].
  split; [reflexivity |].
  repeat split. apply last_snoc.
Qed.

Lemma local_save_round_trip_witness :
  let inp := example_pass "" (Some "Save locally") "Local" in
  ∃ s' file back s'',
    save_changes inp "controle-de-processos" "Controle_de_Processos.parquet"
      (mkDataFrame 1 two_rows) example_store = (Ret (), s') ∧
    local_files s' !! entered_path inp = Some file ∧
    pd_read_parquet file s' = (Ret back, s'') ∧
    table back = two_rows ∧
    s3_objects s' = s3_objects example_store ∧ cache s' = ∅ ∧
    calls s' = [] ++ [(FileWrite (entered_path inp) file, true)] ∧
    last (ui s') = Some (UiSuccess ("Saved locally as " +:+ entered_path inp)).
Proof.
  intros inp.
  apply (local_save_round_trip inp "controle-de-processos"
           "Controle_de_Processos.parquet" (mkDataFrame 1 two_rows) example_store).
  - vm_compute. discriminate.
  - reflexivity.
  - reflexivity.
  - reflexivity.
Defined.

(** X10.  A local save that fails writes nothing: when the encoder fails, or
    the encoder succeeds and the file write fails, the section still ends
    normally, the local files are as before and the last thing shown is the
    error message with the text of the failure. *)
Theorem local_save_failure_writes_nothing (inp : Inputs) (bucket key : string)
    (edited_df : DataFrame) (s : state) (msg : string) :
  selected_destination inp ≠ "S3" →
  clicked_button inp = Some "Save locally" →
  encode_fault inp = Some msg ∨ (encode_fault inp = None ∧ file_fault inp = Some msg) →
  ∃ s',
    save_changes inp bucket key edited_df s = (Ret (), s') ∧
    local_files s' = local_files s ∧
    s3_objects s' = s3_objects s ∧
    last (ui s') = Some (UiError ("Error saving locally: " +:+ msg)).
Proof.
  intros Hdest Hclick Hfail.
  unfold save_changes. fold (selected_destination inp).
  unfold save_locally, save_to_file, save_locally_attempt, to_parquet_file, to_parquet.
  exec. fold (selected_destination inp). rewrite decide_False by done.
  rewrite Hclick. rewrite bool_decide_eq_true_2 by done.
  destruct Hfail as [-> | [-> ->]]; exec;
    (eexists; split; [reflexivity |]; fields; repeat split; apply last_snoc).
Qed.

Lemma local_save_failure_writes_nothing_witness :
  let inp := mkInputs example_secrets (mkDate 2026 11 3) {["Save to:" := "Local"]} None
               true true delete_last_row ∅ (Some "Save locally") ∅
               None None None None (Some "Permission denied") in
  ∃ s',
    save_changes inp "controle-de-processos" "Controle_de_Processos.parquet"
      (mkDataFrame 1 two_rows) example_store = (Ret (), s') ∧
    local_files s' = ∅ ∧
    s3_objects s' = s3_objects example_store ∧
    last (ui s') = Some (UiError ("Error saving locally: " +:+ "Permission denied")).
Proof.
  intros inp.
  apply (local_save_failure_writes_nothing inp "controle-de-processos"
           "Controle_de_Processos.parquet" (mkDataFrame 1 two_rows) example_store
           "Permission denied").
  - vm_compute. discriminate.
  - reflexivity.
  - right. split; reflexivity.
Defined.

(** X11.  The destinations exclude each other: one run of the save section
    never issues both a bucket call and a file write, and which of the two it
    can issue is decided by the selected destination alone. *)
Theorem destinations_are_exclusive (inp : Inputs) (bucket key : string)
    (edited_df : DataFrame) (s : state) :
  ∃ new,
    calls (save_changes inp bucket key edited_df s).2 = calls s ++ new ∧
    (selected_destination inp = "S3" → ∀ c, c ∈ new → ¬ is_file_write c) ∧
    (selected_destination inp ≠ "S3" → ∀ c, c ∈ new → is_file_write c).
Proof.
  unfold selected_destination. unfold_save. exec.
  destruct (decide (radio_value inp "Save to:" ["S3"; "Local"] = "S3")) as [Hd | Hd].
  - cases.
    all: fields; rewrite <- ?app_assoc; cbn [app].
    all: first [ exists []; rewrite app_nil_r; split; [reflexivity |]
               | eexists; split; [reflexivity |] ].
    all: split; [intros _ c Hin | done].
    all: rewrite list_elem_of_In in Hin; simpl in Hin; unfold is_file_write.
    all: intuition (subst; simpl; tauto).
  - cases.
    all: fields; rewrite <- ?app_assoc; cbn [app].
    all: first [ exists []; rewrite app_nil_r; split; [reflexivity |]
               | eexists; split; [reflexivity |] ].
    all: split; [done | intros _ c Hin].
    all: rewrite list_elem_of_In in Hin; simpl in Hin; unfold is_file_write.
    all: intuition (subst; simpl; tauto).
Qed.

(** ** What a pass leaves alone *)

Section NoSaveClick.

Context (objects : gmap (string * string) blob) (files : gmap string blob)
        (inp : Inputs) (Hno : no_save_click inp).

Abbreviation K := (λ s : state, s3_objects s = objects ∧ local_files s = files).

Ltac stored_leaf := simpl; assumption.

Lemma stored_save_changes bucket key df : preserves K (save_changes inp bucket key df).
Proof.
  intros s [Ho Hf]. destruct Hno as [H1 H2]. unfold_save. exec.
  cases; fields; try done.
  all: repeat match goal with
       | H : bool_decide _ = true |- _ => apply bool_decide_eq_true_1 in H
       end; congruence.
Qed.

Lemma stored_app : preserves K (app inp).
Proof.
  pose proof stored_save_changes.
  unfold app, page, configure, st_secrets, summary_and_footer, df_describe,
    main_editor. unfold_load.
  preserves_with stored_leaf.
Qed.

End NoSaveClick.

(** X12.  Nothing is persisted without a click on a save button: a pass that
    was not started by "Save to S3" or "Save locally" leaves the bucket and
    the local files exactly as they were, in any namespace and whatever is
    edited, deleted or confirmed in it. *)
Theorem no_save_click_no_persistence (ns : gmap string pyval) (inp : Inputs) (s : state) :
  no_save_click inp →
  s3_objects (run_pass ns inp s).2 = s3_objects s ∧
  local_files (run_pass ns inp s).2 = local_files s.
Proof.
  intros Hno. unfold run_pass.
  by apply (stored_app (s3_objects s) (local_files s) inp Hno (fresh_pass ns s)).
Qed.

Lemma no_save_click_no_persistence_witness :
  let inp := example_pass "125" (Some "Confirm Deletion") "S3" in
  s3_objects (run_pass with_bucket_name inp example_store).2 = s3_objects example_store ∧
  local_files (run_pass with_bucket_name inp example_store).2 = local_files example_store.
Proof.
  intros inp.
  apply (no_save_click_no_persistence with_bucket_name inp example_store).
  split; discriminate.
Defined.

(** X13.  The prior version survives a remote save, where the name
    [BUCKET_NAME] resolves: unless the backup address is the primary address
    itself, the handler leaves the object at (bucket, key) as it was, or it
    has put the edited table there and the object at the backup key is the
    prior version. *)
Theorem remote_save_keeps_prior_version (inp : Inputs) (bucket key : string)
    (edited_df : DataFrame) (s : state) (prior : blob) :
  s3_objects s !! (bucket, key) = Some prior →
  (∀ dst, globals s !! "BUCKET_NAME" = Some (PStr dst) →
          (dst, backup_key_on (now inp)) ≠ (bucket, key)) →
  let s' := (save_to_s3 inp bucket key edited_df s).2 in
  s3_objects s' !! (bucket, key) = Some prior ∨
  (s3_objects s' !! (bucket, key) = Some (Parquet (table edited_df)) ∧
   ∃ dst, globals s !! "BUCKET_NAME" = Some (PStr dst) ∧
          s3_objects s' !! (dst, backup_key_on (now inp)) = Some prior).
Proof.
  intros Hprior Hdistinct. unfold_save. exec. fields.
  rewrite lookup_insert_ne by done.
  destruct (globals s !! "BUCKET_NAME") as [[dst | |] |] eqn:Hname; exec; fields;
    try (by left).
  specialize (Hdistinct dst eq_refl). fold (backup_key_on (now inp)) in *.
  destruct (copy_fault inp); exec; fields; [by left |].
  rewrite Hprior. exec. fields.
  destruct (encode_fault inp); exec; fields; [left; by rewrite lookup_insert_ne |].
  destruct (put_fault inp); exec; fields; [left; by rewrite lookup_insert_ne |].
  right. split; [apply lookup_insert_eq |].
  exists dst. split; [done |].
  rewrite lookup_insert_ne by done. apply lookup_insert_eq.
Qed.

Lemma remote_save_keeps_prior_version_witness :
  let inp := example_pass "" (Some "Save to S3") "S3" in
  let bucket := "controle-de-processos" in
  let key := "Controle_de_Processos.parquet" in
  let s := fresh_pass with_bucket_name example_store in
  let s' := (save_to_s3 inp bucket key (mkDataFrame 1 two_rows) s).2 in
  s3_objects s' !! (bucket, key) = Some (Parquet three_rows) ∨
  (s3_objects s' !! (bucket, key) = Some (Parquet (table (mkDataFrame 1 two_rows))) ∧
   ∃ dst, globals s !! "BUCKET_NAME" = Some (PStr dst) ∧
          s3_objects s' !! (dst, backup_key_on (now inp)) = Some (Parquet three_rows)).
Proof.
  intros inp bucket key s.
  apply (remote_save_keeps_prior_version inp bucket key (mkDataFrame 1 two_rows) s
           (Parquet three_rows)).
  - vm_compute. reflexivity.
  - intros dst Hdst. vm_compute in Hdst. injection Hdst as <-.
    vm_compute. discriminate.
Defined.

(** Where the primary key is the backup key of the day, the copy lands on the
    object itself and the prior version is gone after the save. *)
Example primary_at_backup_key_is_lost :
  let inp := example_pass "" (Some "Save to S3") "S3" in
  let bucket := "controle-de-processos" in
  let key := backup_key_on (mkDate 2026 11 3) in
  let s := mkState {[(bucket, key) := Parquet three_rows]} ∅ ∅ [] [] with_bucket_name 0 in
  map_to_list (s3_objects (save_to_s3 inp bucket key (mkDataFrame 1 two_rows) s).2)
  = [((bucket, key), Parquet two_rows)].
Proof. vm_compute. reflexivity. Qed.

(** X14.  The summary and the footer only render: they leave the bucket, the
    local files, the memo table, the namespace and the list of calls as they
    found them; with the checkbox unticked, or a table that has columns, they
    end normally with the application notes as the last thing shown. *)
Theorem summary_only_renders (inp : Inputs) (edited_df : DataFrame) (s : state) :
  let r := summary_and_footer inp edited_df s in
  s3_objects r.2 = s3_objects s ∧ local_files r.2 = local_files s ∧
  cache r.2 = cache s ∧ globals r.2 = globals s ∧ calls r.2 = calls s ∧
  ("Show DataFrame Summary" ∉ ticked inp ∨ columns (table edited_df) ≠ [] →
   r.1 = Ret () ∧ last (ui r.2) = Some (UiMarkdown application_notes)).
Proof.
  unfold summary_and_footer, df_describe. exec.
  destruct (bool_decide _) eqn:Hticked; exec.
  - apply bool_decide_eq_true_1 in Hticked.
    destruct (columns (table edited_df)) eqn:Hcols; exec; fields.
    + split_and!; try done. intros [Hn | Hn]; done.
    + split_and!; try done. intros _. split; [done | apply last_snoc].
  - fields. split_and!; try done. intros _. split; [done | apply last_snoc].
Qed.

(** ** The configuration *)

(** The configuration when the five secrets are there. *)
Lemma configure_run (inp : Inputs) (s : state) (access secret region bucket key : string) :
  secrets inp !! "AWS_ACCESS_KEY_ID" = Some access →
  secrets inp !! "AWS_SECRET_ACCESS_KEY" = Some secret →
  secrets inp !! "AWS_REGION" = Some region →
  secrets inp !! "BUCKET_NAME" = Some bucket →
  secrets inp !! "PARQUET_KEY" = Some key →
  ∃ s', configure inp s = (Ret (bucket, key), s') ∧
        ui s' = ui s ++ [UiTitle "Parquet Client Data Editor"] ∧
        calls s' = calls s ∧ globals s' !! "BUCKET_NAME" = globals s !! "BUCKET_NAME".
Proof.
  intros H1 H2 H3 H4 H5. unfold configure, st_secrets.
  rewrite H1, H2, H3, H4, H5. exec.
  eexists. split; [reflexivity |]. fields.
  split; [done |]. split; [done |]. by rewrite !lookup_insert_ne by done.
Qed.

(** The configuration when one of them is missing. *)
Lemma configure_missing (inp : Inputs) (s : state) (name : string) :
  name ∈ secret_names →
  secrets inp !! name = None →
  ∃ e s', configure inp s = (Raise e, s') ∧ exn_cls e = KeyError ∧
          calls s' = calls s ∧ s3_objects s' = s3_objects s ∧
          local_files s' = local_files s ∧ cache s' = cache s ∧
          (ui s' = ui s ∨ ui s' = ui s ++ [UiTitle "Parquet Client Data Editor"]).
Proof.
  intros Hin Hnone. unfold configure, st_secrets. exec.
  destruct (secrets inp !! "AWS_ACCESS_KEY_ID") eqn:H1; exec;
    [| eexists _, _; split; [reflexivity |]; fields; split_and!; try done; by left].
  destruct (secrets inp !! "AWS_SECRET_ACCESS_KEY") eqn:H2; exec;
    [| eexists _, _; split; [reflexivity |]; fields; split_and!; try done; by left].
  destruct (secrets inp !! "AWS_REGION") eqn:H3; exec;
    [| eexists _, _; split; [reflexivity |]; fields; split_and!; try done; by left].
  destruct (secrets inp !! "BUCKET_NAME") eqn:H4; exec;
    [| eexists _, _; split; [reflexivity |]; fields; split_and!; try done; by right].
  destruct (secrets inp !! "PARQUET_KEY") eqn:H5; exec;
    [| eexists _, _; split; [reflexivity |]; fields; split_and!; try done; by right].
  exfalso. unfold secret_names in Hin.
  rewrite list_elem_of_In in Hin. simpl in Hin.
  destruct Hin as [<- | [<- | [<- | [<- | [<- | []]]]]]; congruence.
Qed.

(** X15.  A missing secret ends the pass before any table operation: when one
    of the five secrets is absent the script ends with an uncaught [KeyError];
    it has issued no call, rendered at most the title, and left the bucket,
    the local files and the memo table as they were. *)
Theorem missing_secret_ends_the_pass (inp : Inputs) (s : state) (name : string) :
  name ∈ secret_names →
  secrets inp !! name = None →
  ∃ e s', app inp s = (Raise e, s') ∧ exn_cls e = KeyError ∧
          calls s' = calls s ∧ s3_objects s' = s3_objects s ∧
          local_files s' = local_files s ∧ cache s' = cache s ∧
          (ui s' = ui s ∨ ui s' = ui s ++ [UiTitle "Parquet Client Data Editor"]).
Proof.
  intros Hin Hnone.
  destruct (configure_missing inp s name Hin Hnone) as (e & s' & Hrun & Hrest).
  exists e, s'. split; [| exact Hrest].
  unfold app. by erewrite bind_raise.
Qed.

Lemma missing_secret_ends_the_pass_witness :
  let inp := mkInputs (delete "AWS_REGION" example_secrets) (mkDate 2026 11 3) ∅ None
               true true delete_last_row ∅ None ∅ None None None None None in
  ∃ e s', app inp example_store = (Raise e, s') ∧ exn_cls e = KeyError ∧
          calls s' = calls example_store ∧ s3_objects s' = s3_objects example_store ∧
          local_files s' = local_files example_store ∧ cache s' = cache example_store ∧
          (ui s' = ui example_store ∨
           ui s' = ui example_store ++ [UiTitle "Parquet Client Data Editor"]).
Proof.
  intros inp.
  apply (missing_secret_ends_the_pass inp example_store "AWS_REGION").
  - unfold secret_names. apply list_elem_of_In. simpl. tauto.
  - vm_compute. reflexivity.
Defined.

(** X16.  When the configuration hands an address to the page, the five
    secrets are all there and the address is the pair of the secrets
    [BUCKET_NAME] and [PARQUET_KEY]: the page never runs on an address that
    comes from anywhere else. *)
Theorem configure_needs_every_secret (inp : Inputs) (s s' : state) (bucket key : string) :
  configure inp s = (Ret (bucket, key), s') →
  secrets inp !! "BUCKET_NAME" = Some bucket ∧
  secrets inp !! "PARQUET_KEY" = Some key ∧
  ∀ name, name ∈ secret_names → is_Some (secrets inp !! name).
Proof.
  intros Hrun.
  assert (Hall : ∀ name, name ∈ secret_names → is_Some (secrets inp !! name)).
  { intros name Hin.
    destruct (secrets inp !! name) eqn:Hname; [by eexists |].
    destruct (configure_missing inp s name Hin Hname) as (e & s'' & Hraise & _).
    rewrite Hrun in Hraise. discriminate. }
  assert (∀ name, In name secret_names → is_Some (secrets inp !! name)) as Hall'
    by (intros name Hin; by apply Hall, list_elem_of_In).
  destruct (Hall' "AWS_ACCESS_KEY_ID") as [a Ha]; [simpl; tauto |].
  destruct (Hall' "AWS_SECRET_ACCESS_KEY") as [b Hb]; [simpl; tauto |].
  destruct (Hall' "AWS_REGION") as [c Hc]; [simpl; tauto |].
  destruct (Hall' "BUCKET_NAME") as [bucket' Hbucket]; [simpl; tauto |].
  destruct (Hall' "PARQUET_KEY") as [key' Hkey]; [simpl; tauto |].
  destruct (configure_run inp s a b c bucket' key') as (s'' & Hrun' & _); try done.
  rewrite Hrun in Hrun'. by simplify_eq.
Qed.

Lemma configure_needs_every_secret_witness :
  let inp := example_pass "" None "S3" in
  secrets inp !! "BUCKET_NAME" = Some "controle-de-processos" ∧
  secrets inp !! "PARQUET_KEY" = Some "Controle_de_Processos.parquet" ∧
  ∀ name, name ∈ secret_names → is_Some (secrets inp !! name).
Proof.
  intros inp.
  refine (configure_needs_every_secret inp example_store (configure inp example_store).2
            "controle-de-processos" "Controle_de_Processos.parquet" _).
  vm_compute. reflexivity.
Defined.

(** ** A pass on a cached table *)

Section CachedPass.

Context (issued : list (io_call * bool)) (bucket key : string) (t : Table)
        (inp : Inputs) (Hno : no_save_click inp).

Abbreviation Q := (λ s : state, calls s = issued ∧ cache s !! (bucket, key) = Some t).

Ltac quiet_leaf := simpl; assumption.

Lemma quiet_read_from_s3 : preserves Q (read_from_s3 inp bucket key).
Proof.
  intros s [Hcalls Hhit]. by rewrite (read_from_s3_hit inp bucket key s t Hhit).
Qed.

Lemma quiet_save_changes df : preserves Q (save_changes inp bucket key df).
Proof.
  intros s [Hcalls Hhit]. destruct Hno as [H1 H2]. unfold_save. exec.
  cases; fields; try done.
  all: repeat match goal with
       | H : bool_decide _ = true |- _ => apply bool_decide_eq_true_1 in H
       end; congruence.
Qed.

Lemma quiet_page : preserves Q (page inp bucket key).
Proof.
  pose proof quiet_read_from_s3. pose proof quiet_save_changes.
  unfold page, load_data, choose_mode, load_attempt, pd_read_parquet,
    summary_and_footer, df_describe, main_editor.
  preserves_with quiet_leaf.
Qed.

End CachedPass.

(** X17.  A pass on a cached table stays off the network: when the memo table
    holds (bucket, key) and the pass was not started by a save button, the
    page issues no storage call and no file write at all, in either load mode
    and whatever the bucket holds or the transport would do. *)
Theorem cached_pass_issues_no_call (inp : Inputs) (bucket key : string) (t : Table)
    (s : state) :
  cache s !! (bucket, key) = Some t →
  no_save_click inp →
  calls (page inp bucket key s).2 = calls s.
Proof.
  intros Hhit Hno.
  by apply (quiet_page (calls s) bucket key t inp Hno s).
Qed.

Lemma cached_pass_issues_no_call_witness :
  let inp := mkInputs example_secrets (mkDate 2026 11 3) ∅ None true true
               delete_last_row ∅ (Some "Confirm Deletion") ∅
               (Some "Connection timed out") None None None None in
  let bucket := "controle-de-processos" in
  let key := "Controle_de_Processos.parquet" in
  let s := set_cache (insert (bucket, key) three_rows) example_store in
  calls (page inp bucket key s).2 = calls s.
Proof.
  intros inp bucket key s.
  apply (cached_pass_issues_no_call inp bucket key three_rows s).
  - vm_compute. reflexivity.
  - split; discriminate.
Defined.

(** ** Saving where nothing is stored yet, and reading what cannot be read *)

(** X18.  The remote save cannot create the table: when no object is stored
    at (bucket, key), as after loading from an upload, the handler ends with
    an error message and leaves the bucket as it was, in every namespace and
    whatever the faults, because the backup copy comes first and has nothing
    to copy. *)
Theorem remote_save_cannot_create (inp : Inputs) (bucket key : string)
    (edited_df : DataFrame) (s : state) :
  s3_objects s !! (bucket, key) = None →
  ∃ s' msg,
    save_to_s3 inp bucket key edited_df s = (Ret (), s') ∧
    s3_objects s' = s3_objects s ∧
    last (ui s') = Some (UiError ("Error saving to S3: " +:+ msg)) ∧
    ∀ c, c ∈ calls s' → c ∈ calls s ∨ failed_copy c.
Proof.
  intros Habsent. unfold_save. exec. fields.
  rewrite lookup_insert_ne by done.
  destruct (globals s !! "BUCKET_NAME") as [[dst | |] |]; exec; fields.
  - destruct (copy_fault inp); exec; fields; [| rewrite Habsent; exec; fields].
    all: eexists _, _; split; [reflexivity |]; fields.
    all: split; [done |]; split; [apply last_snoc |].
    all: intros c; rewrite elem_of_app, list_elem_of_singleton.
    all: intros [Hin | ->]; [by left | right; by eexists _, _, _].
  - eexists _, _. split; [reflexivity |]. fields.
    split; [done |]. split; [apply last_snoc | by left].
  - eexists _, _. split; [reflexivity |]. fields.
    split; [done |]. split; [apply last_snoc | by left].
  - eexists _, _. split; [reflexivity |]. fields.
    split; [done |]. split; [apply last_snoc | by left].
Qed.

Lemma remote_save_cannot_create_witness :
  let inp := example_pass "" (Some "Save to S3") "S3" in
  let s := mkState ∅ ∅ ∅ [] [] with_bucket_name 0 in
  ∃ s' msg,
    save_to_s3 inp "controle-de-processos" "Controle_de_Processos.parquet"
      (mkDataFrame 0 two_rows) s = (Ret (), s') ∧
    s3_objects s' = s3_objects s ∧
    last (ui s') = Some (UiError ("Error saving to S3: " +:+ msg)) ∧
    ∀ c, c ∈ calls s' → c ∈ calls s ∨ failed_copy c.
Proof.
  intros inp s.
  apply (remote_save_cannot_create inp "controle-de-processos"
           "Controle_de_Processos.parquet" (mkDataFrame 0 two_rows) s).
  vm_compute. reflexivity.
Defined.

(** X19.  A remote read that fails is not memoized: when [read_from_s3]
    raises, the memo table is as before, so the next pass reads the bucket
    again; the failed pass has issued the one read. *)
Theorem failed_read_is_not_cached (inp : Inputs) (bucket key : string) (s s' : state)
    (e : exn) :
  read_from_s3 inp bucket key s = (Raise e, s') →
  cache s' = cache s ∧
  cache s !! (bucket, key) = None ∧
  ∃ ok, calls s' = calls s ++ [(GetObject bucket key, ok)].
Proof.
  unfold_load. exec. intros Hrun.
  destruct (cache s !! (bucket, key)) eqn:Hmiss; exec; [simplify_eq |].
  cases; fields; split_and!; eauto.
Qed.

Lemma failed_read_is_not_cached_witness :
  let inp := mkInputs example_secrets (mkDate 2026 11 3) ∅ None true true
               delete_last_row ∅ None ∅
               (Some "Connection timed out") None None None None in
  let bucket := "controle-de-processos" in
  let key := "Controle_de_Processos.parquet" in
  let s' := (read_from_s3 inp bucket key example_store).2 in
  cache s' = cache example_store ∧
  cache example_store !! (bucket, key) = None ∧
  ∃ ok, calls s' = calls example_store ++ [(GetObject bucket key, ok)].
Proof.
  intros inp bucket key s'.
  refine (failed_read_is_not_cached inp bucket key example_store s'
            (Exc ClientError "Connection timed out") _).
  vm_compute. reflexivity.
Defined.
